(** * Fitness tracker module (homework.py): formula sets, dispatcher, report

    A shallow embedding of [src/homework.py].

    Numbers.  A reading or a metric is a Python [int] (an integer of any
    size) or a Python [float] (an IEEE 754 binary64 value, here a
    primitive float).  The operators follow CPython: an [int] that meets a
    [float] is converted first, rounding to nearest even, and raises
    [OverflowError] when it is too large; the float operations round to
    nearest even and overflow silently to an infinity; a true division by
    zero raises [ZeroDivisionError]; the quotient of two [int]s is the
    correctly rounded quotient.  [x ** 2] stands for the C library's
    [pow (x, 2.0)], taken to be correctly rounded.

    Strings are byte strings: the Cyrillic literals of the source are the
    UTF-8 bytes of the source file. *)

From Stdlib Require Import ZArith QArith Qround Qabs Lia Lqa.
From Stdlib Require Import PrimFloat SpecFloat FloatOps.
From Stdlib Require Import String Ascii List DecimalString DecimalN.
From stdpp Require Import base gmap strings.
Import ListNotations.

#[local] Set Warnings "-inexact-float".
Local Open Scope Z_scope.
Local Open Scope string_scope.

(** ** Python layer: exceptions, numbers, formatting *)

Module Py.

(** The exceptions the module can raise.  [KeyError] and
    [NotImplementedError] carry the message built by the source. *)
Inductive exn : Type :=
  | KeyError (msg : string)
  | NotImplementedError (msg : string)
  | ZeroDivisionError
  | OverflowError
  | TypeError
  | ValueError.

(** A computation either returns a value or raises. *)
Inductive result (A : Type) : Type :=
  | Ok (a : A)
  | Raise (e : exn).
Arguments Ok {A} a.
Arguments Raise {A} e.

Definition bind {A B : Type} (m : result A) (k : A -> result B) : result B :=
  match m with
  | Ok a => k a
  | Raise e => Raise e
  end.

(** Sequencing uses the monad notations of stdpp: [x ← m; k]. *)
#[export] Instance result_ret : MRet result := @Ok.
#[export] Instance result_bind : MBind result :=
  fun A B k m => bind m k.

(** *** Numbers *)

Inductive number : Type :=
  | PyInt (z : Z)
  | PyFloat (f : float).

(** The float nearest to the rational [q >= 0], with the given sign; ties
    go to the even neighbour, a magnitude out of range gives an infinity.
    The quotient is cut below the last bit that can matter and a sticky
    bit records what was cut. *)
Definition round_to_float (negative : bool) (q : Q) : float :=
  let n := Qnum q in
  let d := Zpos (Qden q) in
  if (n <=? 0)%Z then (if negative then PrimFloat.neg_zero else PrimFloat.zero)
  else
    let s := Z.min (-1080) (Z.log2 n - Z.log2 d - 56) in
    let scaled := n * 2 ^ (- s) in
    let t := scaled / d in
    let sticky := if (scaled mod d =? 0)%Z then 0 else 1 in
    let m := 2 * t + sticky in
    SF2Prim
      (binary_normalize prec emax (if negative then - m else m) (s - 1) false).

(** [float(z)] for an [int]. *)
Definition float_of_int (z : Z) : result float :=
  let f := SF2Prim (binary_normalize prec emax z 0 false) in
  if is_infinity f then Raise OverflowError else Ok f.

(** The conversion that the float operators apply to an operand. *)
Definition to_float (x : number) : result float :=
  match x with
  | PyInt z => float_of_int z
  | PyFloat f => Ok f
  end.

(** The value of a finite float as a rational. *)
Definition exact (f : float) : Q :=
  match Prim2SF f with
  | S754_finite s m e =>
      let v := if s then Zneg m else Zpos m in
      if (0 <=? e)%Z then inject_Z (v * 2 ^ e)
      else Qmake v (Z.to_pos (2 ^ (- e)))
  | _ => 0%Q
  end.

(** [a + b]. *)
Definition add (a b : number) : result number :=
  match a, b with
  | PyInt x, PyInt y => Ok (PyInt (x + y))
  | _, _ => x ← to_float a; y ← to_float b; Ok (PyFloat (x + y))
  end.

(** [a * b]. *)
Definition mul (a b : number) : result number :=
  match a, b with
  | PyInt x, PyInt y => Ok (PyInt (x * y))
  | _, _ => x ← to_float a; y ← to_float b; Ok (PyFloat (x * y))
  end.

(** [a / b]. *)
Definition truediv (a b : number) : result number :=
  match a, b with
  | PyInt x, PyInt y =>
      if (y =? 0)%Z then Raise ZeroDivisionError
      else
        let f := round_to_float (xorb (x <? 0)%Z (y <? 0)%Z)
                   (Qmake (Z.abs x) (Z.to_pos (Z.abs y))) in
        if is_infinity f then Raise OverflowError else Ok (PyFloat f)
  | _, _ =>
      x ← to_float a;
      y ← to_float b;
      if is_zero y then Raise ZeroDivisionError else Ok (PyFloat (x / y))
  end.

(** [x ** n] of a float for an integer exponent: the special cases of
    CPython's [float_pow], then the correctly rounded power. *)
Definition float_pow (x : float) (n : Z) : result float :=
  if (n =? 0)%Z then Ok 1%float
  else if is_nan x then Ok x
  else if is_infinity x then
    Ok (if (0 <? n)%Z then (if Z.odd n then x else abs x)
        else (if Z.odd n && get_sign x
              then PrimFloat.neg_zero else PrimFloat.zero))
  else if is_zero x then
    (if (n <? 0)%Z then Raise ZeroDivisionError
     else Ok (if Z.odd n then x else PrimFloat.zero))
  else
    let y := round_to_float (Z.odd n && get_sign x)
               (Qpower (Qabs (exact x)) n) in
    if is_infinity y then Raise OverflowError else Ok y.

(** [x ** n] for an integer [n]. *)
Definition pow (x : number) (n : Z) : result number :=
  match x with
  | PyInt z =>
      if (0 <=? n)%Z then Ok (PyInt (z ^ n))
      else f ← float_of_int z; y ← float_pow f n; Ok (PyFloat y)
  | PyFloat f => y ← float_pow f n; Ok (PyFloat y)
  end.

(** Rounding of a non-negative rational to the nearest integer, ties to the
    even neighbour (the rounding of [round] and of the [f] presentation). *)
Definition round_half_even (x : Q) : Z :=
  let f := Qfloor x in
  match Qcompare (x - inject_Z f) (1 # 2) with
  | Lt => f
  | Gt => (f + 1)%Z
  | Eq => if Z.even f then f else (f + 1)%Z
  end.

(** [pow10 k] is [10 ** k]. *)
Definition pow10 (k : nat) : Z := (10 ^ Z.of_nat k)%Z.

(** [scaled q k]: the non-negative [q] in units of [10 ** -k], rounded. *)
Definition scaled (q : Q) (k : nat) : Z :=
  round_half_even (q * inject_Z (pow10 k)).

(** [round(x, ndigits)] for [ndigits >= 0]. *)
Definition round (x : number) (ndigits : nat) : result number :=
  match x with
  | PyInt z => Ok (PyInt z)
  | PyFloat f =>
      if is_finite f then
        let y := round_to_float (get_sign f)
                   (inject_Z (scaled (Qabs (exact f)) ndigits)
                    / inject_Z (pow10 ndigits)) in
        if is_infinity y then Raise OverflowError else Ok (PyFloat y)
      else Ok (PyFloat f)
  end.

(** [c.isdigit()] on an ASCII character. *)
Definition is_digit (c : ascii) : bool :=
  let n := nat_of_ascii c in (48 <=? n)%nat && (n <=? 57)%nat.

(** One decimal digit. *)
Definition digit (d : Z) : ascii :=
  ascii_of_nat (48 + Z.to_nat (d mod 10)).

(** The last [k] decimal digits of [n], zero padded. *)
Fixpoint digits_fixed (k : nat) (n : Z) : string :=
  match k with
  | O => EmptyString
  | S k' => digits_fixed k' (n / 10) ++ String (digit n) EmptyString
  end.

(** Decimal numeral of a non-negative integer, no leading zeros. *)
Definition decimal (n : Z) : string :=
  NilZero.string_of_uint (N.to_uint (Z.to_N n)).

(** The digits of the non-negative rational [q] with [prec] digits after
    the decimal point. *)
Definition format_fixed (q : Q) (prec : nat) : string :=
  let n := scaled q prec in
  let frac :=
    match prec with
    | O => ""
    | S _ => "." ++ digits_fixed prec (n mod pow10 prec)
    end in
  decimal (n / pow10 prec) ++ frac.

(** [format(f, '.{prec}f')] for a float: the exact value is rounded, a
    negative sign is always shown, the non-finite floats have names. *)
Definition format_float (f : float) (prec : nat) : string :=
  if is_nan f then "nan"
  else if is_infinity f then (if get_sign f then "-inf" else "inf")
  else (if get_sign f then "-" else "") ++ format_fixed (Qabs (exact f)) prec.

(** [format(x, '.{prec}f')]: an [int] is converted to a float first. *)
Definition format_number (x : number) (prec : nat) : result string :=
  f ← to_float x; Ok (format_float f prec).

(** *** Dictionaries with string keys *)

(** [key in d]. *)
Definition contains {A : Type} (d : gmap string A) (key : string) : bool :=
  match d !! key with
  | Some _ => true
  | None => false
  end.

(** [d[key]]. *)
Definition getitem {A : Type} (d : gmap string A) (key : string) : result A :=
  match d !! key with
  | Some v => Ok v
  | None => Raise (KeyError key)
  end.

(** *** [str.format] with keyword arguments

    Replacement fields of the forms [{name}] and [{name:spec}] and the
    brace escapes are covered; conversions ([!r]), attribute and index
    access and nested fields do not occur in the module. *)

Inductive value : Type :=
  | VStr (s : string)
  | VNum (x : number).

Inductive piece : Type :=
  | Lit (text : string)
  | Field (name spec : string).

Inductive scan : Type :=
  | InText (text : string)
  | AfterOpen (text : string)
  | AfterClose (text : string)
  | InName (name : string)
  | InSpec (name spec : string).

Definition snoc (s : string) (c : ascii) : string :=
  s ++ String c EmptyString.

Definition open_brace : ascii := "{".
Definition close_brace : ascii := "}".
Definition colon : ascii := ":".

Fixpoint parse_format (s : string) (st : scan) : result (list piece) :=
  match s with
  | EmptyString =>
      match st with
      | InText text => Ok [Lit text]
      | _ => Raise ValueError
      end
  | String c s' =>
      match st with
      | InText text =>
          if Ascii.eqb c open_brace then parse_format s' (AfterOpen text)
          else if Ascii.eqb c close_brace then parse_format s' (AfterClose text)
          else parse_format s' (InText (snoc text c))
      | AfterOpen text =>
          if Ascii.eqb c open_brace then
            parse_format s' (InText (snoc text open_brace))
          else
            rest ← (if Ascii.eqb c close_brace then
                      rest ← parse_format s' (InText ""); Ok (Field "" "" :: rest)
                    else if Ascii.eqb c colon then parse_format s' (InSpec "" "")
                    else parse_format s' (InName (String c EmptyString)));
            Ok (Lit text :: rest)
      | AfterClose text =>
          if Ascii.eqb c close_brace then
            parse_format s' (InText (snoc text close_brace))
          else Raise ValueError
      | InName name =>
          if Ascii.eqb c close_brace then
            rest ← parse_format s' (InText ""); Ok (Field name "" :: rest)
          else if Ascii.eqb c colon then parse_format s' (InSpec name "")
          else parse_format s' (InName (snoc name c))
      | InSpec name spec =>
          if Ascii.eqb c close_brace then
            rest ← parse_format s' (InText ""); Ok (Field name spec :: rest)
          else parse_format s' (InSpec name (snoc spec c))
      end
  end.

(** The precision of a [.Nf] format specification (N one decimal digit). *)
Definition fixed_precision (spec : string) : option nat :=
  match spec with
  | String "." (String d (String "f" EmptyString)) =>
      if is_digit d then Some (nat_of_ascii d - 48)%nat else None
  | _ => None
  end.

(** [format(v, spec)] for the two uses of the module: a string under the
    empty specification, a number under [.Nf].  A string under [.Nf] is a
    [ValueError] in Python; the remaining combinations do not occur in the
    module and are reported the same way. *)
Definition format_value (v : value) (spec : string) : result string :=
  match v with
  | VStr s => if String.eqb spec "" then Ok s else Raise ValueError
  | VNum x =>
      match fixed_precision spec with
      | Some prec => format_number x prec
      | None => Raise ValueError
      end
  end.

Fixpoint render (ps : list piece) (kwargs : gmap string value) : result string :=
  match ps with
  | [] => Ok ""
  | Lit text :: ps' => rest ← render ps' kwargs; Ok (text ++ rest)
  | Field name spec :: ps' =>
      v ← getitem kwargs name;
      shown ← format_value v spec;
      rest ← render ps' kwargs;
      Ok (shown ++ rest)
  end.

(** [template.format] applied to keyword arguments [kwargs]. *)
Definition format (template : string) (kwargs : gmap string value) : result string :=
  ps ← parse_format template (InText ""); render ps kwargs.

End Py.

Export Py.

Coercion PyInt : Z >-> number.
Coercion PyFloat : float >-> number.

(** ** The module *)

(** *** [InfoMessage] *)

Module InfoMessage.

Record t : Type := mk {
  training_type : string;
  duration : number;
  distance : number;
  speed : number;
  calories : number
}.

Definition MESSAGE : string :=
  "Тип тренировки: {training_type}; "
  ++ "Длительность: {duration:.3f} ч.; "
  ++ "Дистанция: {distance:.3f} км; "
  ++ "Ср. скорость: {speed:.3f} км/ч; "
  ++ "Потрачено ккал: {calories:.3f}.".

(** [dataclasses.asdict]: the fields by name. *)
Definition asdict (self : t) : gmap string value :=
  {[ "training_type" := VStr (training_type self);
     "duration" := VNum (duration self);
     "distance" := VNum (distance self);
     "speed" := VNum (speed self);
     "calories" := VNum (calories self) ]}.

Definition get_message (self : t) : result string :=
  format MESSAGE (asdict self).

End InfoMessage.

(** *** [Training] and its subclasses *)

Inductive class : Type :=
  | Training_class
  | Running_class
  | SportsWalking_class
  | Swimming_class.

(** [cls.__name__]. *)
Definition class_name (c : class) : string :=
  match c with
  | Training_class => "Training"
  | Running_class => "Running"
  | SportsWalking_class => "SportsWalking"
  | Swimming_class => "Swimming"
  end.

(** An instance: its class and the attributes set by [__init__]. *)
Inductive Training : Type :=
  | BaseTraining (action duration weight : number)
  | Running (action duration weight : number)
  | SportsWalking (action duration weight height : number)
  | Swimming (action duration weight length_pool count_pool : number).

(** [type(self)]. *)
Definition type_of (self : Training) : class :=
  match self with
  | BaseTraining _ _ _ => Training_class
  | Running _ _ _ => Running_class
  | SportsWalking _ _ _ _ => SportsWalking_class
  | Swimming _ _ _ _ _ => Swimming_class
  end.

Definition action (self : Training) : number :=
  match self with
  | BaseTraining a _ _ | Running a _ _
  | SportsWalking a _ _ _ | Swimming a _ _ _ _ => a
  end.

Definition duration (self : Training) : number :=
  match self with
  | BaseTraining _ d _ | Running _ d _
  | SportsWalking _ d _ _ | Swimming _ d _ _ _ => d
  end.

Definition weight (self : Training) : number :=
  match self with
  | BaseTraining _ _ w | Running _ _ w
  | SportsWalking _ _ w _ | Swimming _ _ w _ _ => w
  end.

(** Class attributes.  [LEN_STEP] is overridden by [Swimming]. *)
Definition LEN_STEP (c : class) : number :=
  match c with
  | Swimming_class => 1.38%float
  | _ => 0.65%float
  end.
Definition M_IN_KM : number := 1000.
Definition MINUTES_IN_HOUR : number := 60.

Definition Running_CALORIES_MEAN_SPEED_MULTIPLIER : number := 18.
Definition Running_CALORIES_MEAN_SPEED_SHIFT : number := 1.79%float.

Definition COEFFICIENT_WEIGHT_1 : number := 0.035%float.
Definition COEFFICIENT_WEIGHT_2 : number := 0.029%float.

(** [round(Training.M_IN_KM / 3600, 3)], evaluated when the class body
    runs. *)
Definition METER_PER_SECOND_COEFFICIENT_expression : result number :=
  q ← truediv M_IN_KM 3600; round q 3.

(** The attribute: the value of the expression, which returns. *)
Definition METER_PER_SECOND_COEFFICIENT : number :=
  match METER_PER_SECOND_COEFFICIENT_expression with
  | Ok x => x
  | Raise _ => nan
  end.
Definition SPEED_DEGREE_INDICATOR : Z := 2.
Definition CM_IN_M : number := 100.

Definition Swimming_CALORIES_MEAN_SPEED_SHIFT : number := 1.1%float.
Definition Swimming_CALORIES_MEAN_SPEED_MULTIPLIER : number := 2.

(** [Training.get_distance], inherited by every subclass. *)
Definition get_distance (self : Training) : result number :=
  x ← mul (action self) (LEN_STEP (type_of self));
  truediv x M_IN_KM.

(** [Training.get_mean_speed]. *)
Definition Training_get_mean_speed (self : Training) : result number :=
  d ← get_distance self;
  truediv d (duration self).

(** [Swimming.get_mean_speed]. *)
Definition Swimming_get_mean_speed (duration length_pool count_pool : number)
  : result number :=
  x ← mul length_pool count_pool;
  y ← truediv x M_IN_KM;
  truediv y duration.

(** [self.get_mean_speed()], resolved on the class of [self]. *)
Definition get_mean_speed (self : Training) : result number :=
  match self with
  | Swimming _ d _ l c => Swimming_get_mean_speed d l c
  | _ => Training_get_mean_speed self
  end.

(** The message of [Training.get_spent_calories]. *)
Definition not_implemented_message (c : class) : string :=
  "Определите get_spent_calories в " ++ class_name c ++ ".".

(** [self.get_spent_calories()], resolved on the class of [self].  The
    operands are evaluated left to right, one operator at a time. *)
Definition get_spent_calories (self : Training) : result number :=
  match self with
  | BaseTraining _ _ _ =>
      Raise (NotImplementedError (not_implemented_message (type_of self)))
  | Running _ d w =>
      v ← get_mean_speed self;
      x1 ← mul Running_CALORIES_MEAN_SPEED_MULTIPLIER v;
      x2 ← add x1 Running_CALORIES_MEAN_SPEED_SHIFT;
      x3 ← mul x2 w;
      x4 ← truediv x3 M_IN_KM;
      x5 ← mul x4 d;
      mul x5 MINUTES_IN_HOUR
  | SportsWalking _ d w h =>
      t1 ← mul COEFFICIENT_WEIGHT_1 w;
      v ← get_mean_speed self;
      t2 ← mul v METER_PER_SECOND_COEFFICIENT;
      t3 ← pow t2 SPEED_DEGREE_INDICATOR;
      t4 ← truediv h CM_IN_M;
      t5 ← truediv t3 t4;
      t6 ← mul t5 COEFFICIENT_WEIGHT_2;
      t7 ← mul t6 w;
      t8 ← add t1 t7;
      t9 ← mul t8 d;
      mul t9 MINUTES_IN_HOUR
  | Swimming _ d w _ _ =>
      v ← get_mean_speed self;
      x1 ← add v Swimming_CALORIES_MEAN_SPEED_SHIFT;
      x2 ← mul x1 Swimming_CALORIES_MEAN_SPEED_MULTIPLIER;
      x3 ← mul x2 w;
      mul x3 d
  end.

(** [Training.show_training_info]: the arguments are evaluated left to
    right. *)
Definition show_training_info (self : Training) : result InfoMessage.t :=
  dist ← get_distance self;
  v ← get_mean_speed self;
  c ← get_spent_calories self;
  Ok (InfoMessage.mk (class_name (type_of self)) (duration self) dist v c).

(** *** Dispatcher *)

Definition TRAINING_TYPES : gmap string class :=
  {[ "RUN" := Running_class;
     "WLK" := SportsWalking_class;
     "SWM" := Swimming_class ]}.

(** [cls( *args )]: the positional arguments bound by [__init__]; a wrong
    number of arguments is a [TypeError]. *)
Definition new (c : class) (args : list number) : result Training :=
  match c, args with
  | Training_class, [a; d; w] => Ok (BaseTraining a d w)
  | Running_class, [a; d; w] => Ok (Running a d w)
  | SportsWalking_class, [a; d; w; h] => Ok (SportsWalking a d w h)
  | Swimming_class, [a; d; w; l; c] => Ok (Swimming a d w l c)
  | _, _ => Raise TypeError
  end.

Definition unknown_type_message (training_type : string) : string :=
  "Unknown training type: " ++ training_type.

Definition read_package (training_type : string) (training_data : list number)
  : result Training :=
  if negb (contains TRAINING_TYPES training_type) then
    Raise (KeyError (unknown_type_message training_type))
  else
    c ← getitem TRAINING_TYPES training_type;
    new c training_data.

(** *** [main] and the script

    Standard output is the list of the lines printed so far. *)

Definition main (training : Training) (stdout : list string)
  : result (list string) :=
  info ← show_training_info training;
  line ← InfoMessage.get_message info;
  Ok (stdout ++ [line])%list.

Definition packages : list (string * list number) :=
  [ ("SWM", [720 : number; 1 : number; 80 : number; 25 : number; 40 : number]);
    ("RUN", [15000 : number; 1 : number; 75 : number]);
    ("WLK", [9000 : number; 1 : number; 75 : number; 180 : number]) ].

Fixpoint run (pkgs : list (string * list number)) (stdout : list string)
  : result (list string) :=
  match pkgs with
  | [] => Ok stdout
  | (workout_type, workout_data) :: pkgs' =>
      workout ← read_package workout_type workout_data;
      stdout' ← main workout stdout;
      run pkgs' stdout'
  end.

(** ** Specification-side definitions

    The notions the specification uses and the source does not name. *)

(** The tags of the registry, as the specification lists them. *)
Definition registry_tags : list string := ["RUN"; "WLK"; "SWM"].

(** The number of positional arguments of [__init__], [self] apart. *)
Definition arity (c : class) : nat :=
  match c with
  | Training_class | Running_class => 3
  | SportsWalking_class => 4
  | Swimming_class => 5
  end.

(** The attributes of an instance in the order [__init__] binds them. *)
Definition readings (self : Training) : list number :=
  match self with
  | BaseTraining a d w | Running a d w => [a; d; w]
  | SportsWalking a d w h => [a; d; w; h]
  | Swimming a d w l c => [a; d; w; l; c]
  end.

(** The step length of a class in metres, as a float. *)
Definition step_length (c : class) : float :=
  match c with
  | Swimming_class => 1.38
  | _ => 0.65
  end.

(** The step length of a class in kilometres, as the specification
    writes it. *)
Definition STEP_LENGTH_KM (c : class) : float :=
  match c with
  | Swimming_class => 0.00138
  | _ => 0.00065
  end.

(** [f > 0] for a float: a positive finite float or the positive
    infinity. *)
Definition float_positive (f : float) : bool :=
  match Prim2SF f with
  | S754_finite false _ _ | S754_infinity false => true
  | _ => false
  end.

(** The zeros of Python: [0], [0.0] and [-0.0]. *)
Definition zero_number (x : number) : Prop :=
  x = PyInt 0 \/ x = PyFloat PrimFloat.zero \/ x = PyFloat PrimFloat.neg_zero.

(** The exceptions of the arithmetic. *)
Definition arithmetic_fault (e : exn) : Prop :=
  e = ZeroDivisionError \/ e = OverflowError.

(** [length_pool * count_pool / 1000], the dividend of swimming's mean
    speed. *)
Definition pool_kilometres (length_pool count_pool : number) : result number :=
  x ← mul length_pool count_pool; truediv x 1000.

(** The dividend of the mean speed: the distance, or for swimming the
    length swum in the pool. *)
Definition dividend (self : Training) : result number :=
  match self with
  | Swimming _ _ _ l c => pool_kilometres l c
  | _ => get_distance self
  end.

(** The calorie formulas of the specification up to the duration: the
    factor that the formula of each kind multiplies by the duration, on
    the mean speed [v]. *)
Definition running_rate (v weight : number) : result number :=
  x1 ← mul 18 v;
  x2 ← add x1 1.79%float;
  x3 ← mul x2 weight;
  truediv x3 1000.

Definition walking_rate (v weight height : number) : result number :=
  t1 ← mul 0.035%float weight;
  t2 ← mul v 0.278%float;
  t3 ← pow t2 2;
  t4 ← truediv height 100;
  t5 ← truediv t3 t4;
  t6 ← mul t5 0.029%float;
  t7 ← mul t6 weight;
  add t1 t7.

Definition swimming_rate (v weight : number) : result number :=
  x1 ← add v 1.1%float;
  x2 ← mul x1 2;
  mul x2 weight.

(** [rate * duration * 60]: the duration converted to minutes. *)
Definition in_minutes (rate duration : number) : result number :=
  x ← mul rate duration; mul x 60.









(** * Verification *)

(** ** Sample evaluations *)

(** The script prints the three lines of the sample packages. *)
Example script_output :
  run packages []
  = Ok [ "Тип тренировки: Swimming; Длительность: 1.000 ч.; "
         ++ "Дистанция: 0.994 км; Ср. скорость: 1.000 км/ч; "
         ++ "Потрачено ккал: 336.000.";
         "Тип тренировки: Running; Длительность: 1.000 ч.; "
         ++ "Дистанция: 9.750 км; Ср. скорость: 9.750 км/ч; "
         ++ "Потрачено ккал: 797.805.";
         "Тип тренировки: SportsWalking; Длительность: 1.000 ч.; "
         ++ "Дистанция: 5.850 км; Ср. скорость: 5.850 км/ч; "
         ++ "Потрачено ккал: 349.252." ].
Proof. vm_compute. reflexivity. Qed.

(** Binary64 rounding shows in the digits: 50 steps are
    [0.0325000000000000011] km, printed [0.033]. *)
Example fifty_steps :
  main (Running 50 1 75) []
  = Ok [ "Тип тренировки: Running; Длительность: 1.000 ч.; "
         ++ "Дистанция: 0.033 км; Ср. скорость: 0.033 км/ч; "
         ++ "Потрачено ккал: 10.688." ].
Proof. vm_compute. reflexivity. Qed.

Example seventy_steps_calories :
  (c ← get_spent_calories (Running 70 1 75); format_number c 3)
  = Ok "11.741".
Proof. vm_compute. reflexivity. Qed.

Example swimming_distance :
  get_distance (Swimming 720 1 80 25 40) = Ok (PyFloat 0.9935999999999999).
Proof. vm_compute. reflexivity. Qed.

(** Floats overflow silently to [inf], and [inf * 0] is [nan]. *)
Example tiny_duration_calories :
  (c ← get_spent_calories (Swimming 720 5e-324%float 80 25 40);
   format_number c 3)
  = Ok "inf"
  /\ (c ← get_spent_calories (Running 100 5e-324%float 0); format_number c 3)
     = Ok "nan".
Proof. split; vm_compute; reflexivity. Qed.

(** An [int] too large for a float raises [OverflowError] where it meets a
    float. *)
Example huge_step_count :
  main (Running (10 ^ 400) 1 75) [] = Raise OverflowError
  /\ get_mean_speed (Swimming 720 1 80 (10 ^ 400) 40) = Raise OverflowError.
Proof. split; vm_compute; reflexivity. Qed.

(** A height that underflows to zero when divided by 100. *)
Example tiny_height :
  get_spent_calories (SportsWalking 9000 1 75 5e-324%float)
  = Raise ZeroDivisionError.
Proof. vm_compute. reflexivity. Qed.

Example base_class_calories :
  get_spent_calories (BaseTraining 100 1 70)
  = Raise (NotImplementedError "Определите get_spent_calories в Training.").
Proof. vm_compute. reflexivity. Qed.

Example wrong_arity :
  read_package "RUN" [15000 : number; 1 : number] = Raise TypeError.
Proof. vm_compute. reflexivity. Qed.

(** The arithmetic of Python on sample operands. *)
Example arithmetic_samples :
  truediv 1 3 = Ok (PyFloat 0.3333333333333333)
  /\ truediv 0 (-5) = Ok (PyFloat (-0.0))
  /\ truediv (2 ^ 1024) 1 = Raise OverflowError
  /\ truediv 1 0 = Raise ZeroDivisionError
  /\ mul 3 0.65%float = Ok (PyFloat 1.9500000000000002)
  /\ mul 3 4 = Ok (PyInt 12)
  /\ pow 1e200%float 2 = Raise OverflowError
  /\ round 2.675%float 2 = Ok (PyFloat 2.67)
  /\ format_number (10 ^ 400) 3 = Raise OverflowError.
Proof. repeat split; vm_compute; reflexivity. Qed.

Example format_brace_escapes :
  format "{{a}} {training_type}"
    (InfoMessage.asdict (InfoMessage.mk "x" 1 1 1 1))
  = Ok "{a} x".
Proof. vm_compute. reflexivity. Qed.
(** ** Properties of the Python layer *)

Section ResultMonad.
Context {A B : Type}.

Lemma bind_Ok (a : A) (k : A -> result B) : (Ok a ≫= k) = k a.
Proof. reflexivity. Qed.

Lemma bind_Raise (e : exn) (k : A -> result B) : (Raise e ≫= k) = Raise e.
Proof. reflexivity. Qed.

Lemma bind_Ok_inv (m : result A) (k : A -> result B) (b : B) :
  (m ≫= k) = Ok b -> exists a, m = Ok a /\ k a = Ok b.
Proof. destruct m as [a | e]; [eauto | discriminate]. Qed.

Lemma bind_Raise_inv (m : result A) (k : A -> result B) (e : exn) :
  (m ≫= k) = Raise e ->
  m = Raise e \/ exists a, m = Ok a /\ k a = Raise e.
Proof.
  destruct m as [a | e']; [eauto |].
  intro H. left. injection H as <-. reflexivity.
Qed.
End ResultMonad.

(** *** Numbers *)

Lemma float_of_int_cases (z : Z) :
  (exists f : float, float_of_int z = Ok f)
  \/ float_of_int z = Raise OverflowError.
Proof.
  unfold float_of_int.
  destruct (is_infinity _); [right | left; eexists]; reflexivity.
Qed.

Lemma to_float_cases (x : number) :
  (exists f : float, to_float x = Ok f) \/ to_float x = Raise OverflowError.
Proof.
  destruct x as [z | f]; [apply float_of_int_cases | left; eexists; reflexivity].
Qed.

Lemma to_float_Raise (x : number) (e : exn) :
  to_float x = Raise e -> e = OverflowError.
Proof.
  destruct (to_float_cases x) as [[f H] | H]; rewrite H; congruence.
Qed.

Lemma to_float_zero (x : number) :
  zero_number x ->
  exists f : float, to_float x = Ok f /\ is_zero f = true.
Proof.
  intros [-> | [-> | ->]]; eexists; split; reflexivity.
Qed.

Lemma float_positive_nonzero (f : float) :
  float_positive f = true -> is_zero f = false.
Proof.
  unfold float_positive, Prim2SF.
  destruct (is_nan f); [discriminate |].
  destruct (is_zero f); [discriminate | reflexivity].
Qed.

Lemma mul_float_l (x : float) (b : number) :
  mul (PyFloat x) b = (y ← to_float b; Ok (PyFloat (x * y))).
Proof. reflexivity. Qed.

Lemma mul_float_r (a : number) (y : float) :
  mul a (PyFloat y) = (x ← to_float a; Ok (PyFloat (x * y))).
Proof. destruct a; reflexivity. Qed.

Lemma add_float_l (x : float) (b : number) :
  add (PyFloat x) b = (y ← to_float b; Ok (PyFloat (x + y))).
Proof. reflexivity. Qed.

Lemma truediv_float_l (x : float) (b : number) :
  truediv (PyFloat x) b
  = (y ← to_float b;
     if is_zero y then Raise ZeroDivisionError else Ok (PyFloat (x / y))).
Proof. reflexivity. Qed.

Lemma truediv_float_Ok (x y : float) (b : number) :
  to_float b = Ok y -> is_zero y = false ->
  truediv (PyFloat x) b = Ok (PyFloat (x / y)).
Proof. intros Hb Hy. rewrite truediv_float_l, Hb, bind_Ok, Hy. reflexivity. Qed.

Lemma truediv_float_zero (x : float) (b : number) :
  zero_number b -> truediv (PyFloat x) b = Raise ZeroDivisionError.
Proof.
  intro Hb. destruct (to_float_zero b Hb) as (y & Hy & Hz).
  rewrite truediv_float_l, Hy, bind_Ok, Hz. reflexivity.
Qed.

Lemma to_float_1000 : to_float 1000 = Ok 1000%float.
Proof. vm_compute. reflexivity. Qed.

Lemma to_float_100 : to_float 100 = Ok 100%float.
Proof. vm_compute. reflexivity. Qed.

Lemma to_float_60 : to_float 60 = Ok 60%float.
Proof. vm_compute. reflexivity. Qed.

Lemma to_float_18 : to_float 18 = Ok 18%float.
Proof. vm_compute. reflexivity. Qed.

Lemma to_float_2 : to_float 2 = Ok 2%float.
Proof. vm_compute. reflexivity. Qed.

Lemma div_1000 (x : float) :
  truediv (PyFloat x) 1000 = Ok (PyFloat (x / 1000)).
Proof. apply truediv_float_Ok; [exact to_float_1000 | reflexivity]. Qed.

Lemma div_100 (x : float) :
  truediv (PyFloat x) 100 = Ok (PyFloat (x / 100)).
Proof. apply truediv_float_Ok; [exact to_float_100 | reflexivity]. Qed.

Lemma mul_60 (x : float) : mul (PyFloat x) 60 = Ok (PyFloat (x * 60)).
Proof. rewrite mul_float_l, to_float_60. reflexivity. Qed.

Lemma mul_2 (x : float) : mul (PyFloat x) 2 = Ok (PyFloat (x * 2)).
Proof. rewrite mul_float_l, to_float_2. reflexivity. Qed.

Lemma mul_18 (x : float) : mul 18 (PyFloat x) = Ok (PyFloat (18 * x)).
Proof. rewrite mul_float_r, to_float_18. reflexivity. Qed.

(** Which exceptions the operators raise. *)

Lemma mul_Raise (a b : number) (e : exn) :
  mul a b = Raise e -> e = OverflowError.
Proof.
  destruct a as [x | x], b as [y | y]; cbn [mul]; try discriminate; intro H;
    apply bind_Raise_inv in H as [H | (fa & _ & H)];
    try exact (to_float_Raise _ _ H);
    apply bind_Raise_inv in H as [H | (fb & _ & H)];
    try exact (to_float_Raise _ _ H); discriminate H.
Qed.

Lemma add_Raise (a b : number) (e : exn) :
  add a b = Raise e -> e = OverflowError.
Proof.
  destruct a as [x | x], b as [y | y]; cbn [add]; try discriminate; intro H;
    apply bind_Raise_inv in H as [H | (fa & _ & H)];
    try exact (to_float_Raise _ _ H);
    apply bind_Raise_inv in H as [H | (fb & _ & H)];
    try exact (to_float_Raise _ _ H); discriminate H.
Qed.

Lemma truediv_Raise (a b : number) (e : exn) :
  truediv a b = Raise e -> arithmetic_fault e.
Proof.
  unfold arithmetic_fault.
  destruct a as [x | x], b as [y | y]; cbn [truediv]; intro H.
  1: { destruct (y =? 0)%Z; [left; congruence |].
       destruct (is_infinity _); [right; congruence | discriminate H]. }
  all: apply bind_Raise_inv in H as [H | (fa & _ & H)];
    [right; exact (to_float_Raise _ _ H) |];
    apply bind_Raise_inv in H as [H | (fb & _ & H)];
    [right; exact (to_float_Raise _ _ H) |];
    destruct (is_zero fb); [left; congruence | discriminate H].
Qed.

Lemma float_pow_Raise (x : float) (n : Z) (e : exn) :
  float_pow x n = Raise e -> arithmetic_fault e.
Proof.
  unfold float_pow, arithmetic_fault.
  destruct (n =? 0)%Z; [discriminate |].
  destruct (is_nan x); [discriminate |].
  destruct (is_infinity x); [discriminate |].
  destruct (is_zero x).
  - destruct (n <? 0)%Z; [left; congruence | discriminate].
  - destruct (is_infinity _); [right; congruence | discriminate].
Qed.

Lemma pow_Raise (x : number) (n : Z) (e : exn) :
  pow x n = Raise e -> arithmetic_fault e.
Proof.
  destruct x as [z | f]; cbn [pow]; intro H.
  - destruct (0 <=? n)%Z; [discriminate H |].
    apply bind_Raise_inv in H as [H | (f & _ & H)].
    + right. destruct (float_of_int_cases z) as [[f Hf] | Hf]; congruence.
    + apply bind_Raise_inv in H as [H | (y & _ & H)]; [| discriminate H].
      exact (float_pow_Raise _ _ _ H).
  - apply bind_Raise_inv in H as [H | (y & _ & H)]; [| discriminate H].
    exact (float_pow_Raise _ _ _ H).
Qed.

(** Which results are floats. *)

Lemma truediv_Ok_float (a b v : number) :
  truediv a b = Ok v -> exists f : float, v = PyFloat f.
Proof.
  destruct a as [x | x], b as [y | y]; cbn [truediv]; intro H.
  - destruct (y =? 0)%Z; [discriminate H |].
    destruct (is_infinity _); [discriminate H |].
    injection H as <-. eauto.
  - apply bind_Ok_inv in H as (fa & _ & H).
    apply bind_Ok_inv in H as (fb & _ & H).
    destruct (is_zero fb); [discriminate H | injection H as <-; eauto].
  - apply bind_Ok_inv in H as (fa & _ & H).
    apply bind_Ok_inv in H as (fb & _ & H).
    destruct (is_zero fb); [discriminate H | injection H as <-; eauto].
  - apply bind_Ok_inv in H as (fa & _ & H).
    apply bind_Ok_inv in H as (fb & _ & H).
    destruct (is_zero fb); [discriminate H | injection H as <-; eauto].
Qed.

Lemma truediv_float_Ok_inv (x : float) (b v : number) :
  truediv (PyFloat x) b = Ok v ->
  exists y : float,
    to_float b = Ok y /\ is_zero y = false /\ v = PyFloat (x / y).
Proof.
  rewrite truediv_float_l. intro H.
  apply bind_Ok_inv in H as (y & Hy & H).
  destruct (is_zero y) eqn:Hz; [discriminate H |].
  injection H as <-. eauto.
Qed.

Lemma mul_float_l_Ok_inv (x : float) (b v : number) :
  mul (PyFloat x) b = Ok v ->
  exists y : float, to_float b = Ok y /\ v = PyFloat (x * y).
Proof.
  rewrite mul_float_l. intro H.
  apply bind_Ok_inv in H as (y & Hy & H). injection H as <-. eauto.
Qed.

Lemma add_float_l_Ok_inv (x : float) (b v : number) :
  add (PyFloat x) b = Ok v ->
  exists y : float, to_float b = Ok y /\ v = PyFloat (x + y).
Proof.
  rewrite add_float_l. intro H.
  apply bind_Ok_inv in H as (y & Hy & H). injection H as <-. eauto.
Qed.

Lemma mul_Ok_cases (a b x : number) :
  mul a b = Ok x ->
  (exists za zb : Z, a = PyInt za /\ b = PyInt zb /\ x = PyInt (za * zb))
  \/ exists f : float, x = PyFloat f.
Proof.
  destruct a as [za | fa].
  - destruct b as [zb | fb].
    + cbn [mul]. intro H. injection H as <-. left. eauto.
    + rewrite mul_float_r. intro H.
      apply bind_Ok_inv in H as (f & _ & H). injection H as <-. eauto.
  - intro H. apply mul_float_l_Ok_inv in H as (y & _ & ->). eauto.
Qed.

(** *** Digits *)


















(** *** Fixed-point presentation *)



Lemma unsigned_head (c : ascii) : is_digit c = true -> c <> "-"%char.
Proof. intros Hc ->. discriminate Hc. Qed.









(** *** Presentation of a float *)






(** *** The message template *)

Lemma parse_MESSAGE :
  parse_format InfoMessage.MESSAGE (InText "")
  = Ok [ Lit "Тип тренировки: "; Field "training_type" "";
         Lit "; Длительность: "; Field "duration" ".3f";
         Lit " ч.; Дистанция: "; Field "distance" ".3f";
         Lit " км; Ср. скорость: "; Field "speed" ".3f";
         Lit " км/ч; Потрачено ккал: "; Field "calories" ".3f";
         Lit "." ].
Proof. vm_compute. reflexivity. Qed.

Lemma get_message_eq (m : InfoMessage.t) :
  InfoMessage.get_message m
  = (s1 ← format_number (InfoMessage.duration m) 3;
     s2 ← format_number (InfoMessage.distance m) 3;
     s3 ← format_number (InfoMessage.speed m) 3;
     s4 ← format_number (InfoMessage.calories m) 3;
     Ok ("Тип тренировки: " ++ InfoMessage.training_type m
         ++ "; Длительность: " ++ s1
         ++ " ч.; Дистанция: " ++ s2
         ++ " км; Ср. скорость: " ++ s3
         ++ " км/ч; Потрачено ккал: " ++ s4
         ++ ".")).
Proof.
  unfold InfoMessage.get_message, format. rewrite parse_MESSAGE, bind_Ok.
  cbn [render].
  change (getitem (InfoMessage.asdict m) "training_type")
    with (Ok (VStr (InfoMessage.training_type m))).
  change (getitem (InfoMessage.asdict m) "duration")
    with (Ok (VNum (InfoMessage.duration m))).
  change (getitem (InfoMessage.asdict m) "distance")
    with (Ok (VNum (InfoMessage.distance m))).
  change (getitem (InfoMessage.asdict m) "speed")
    with (Ok (VNum (InfoMessage.speed m))).
  change (getitem (InfoMessage.asdict m) "calories")
    with (Ok (VNum (InfoMessage.calories m))).
  rewrite !bind_Ok.
  change (format_value (VStr (InfoMessage.training_type m)) "")
    with (@Ok string (InfoMessage.training_type m)).
  change (format_value (VNum ?x) ".3f") with (format_number x 3).
  rewrite bind_Ok.
  destruct (format_number (InfoMessage.duration m) 3) as [s1 | e];
    [| reflexivity]. rewrite !bind_Ok.
  destruct (format_number (InfoMessage.distance m) 3) as [s2 | e];
    [| reflexivity]. rewrite !bind_Ok.
  destruct (format_number (InfoMessage.speed m) 3) as [s3 | e];
    [| reflexivity]. rewrite !bind_Ok.
  destruct (format_number (InfoMessage.calories m) 3) as [s4 | e];
    reflexivity.
Qed.

Lemma get_message_floats (m : InfoMessage.t) (f1 f2 f3 f4 : float) :
  to_float (InfoMessage.duration m) = Ok f1 ->
  to_float (InfoMessage.distance m) = Ok f2 ->
  to_float (InfoMessage.speed m) = Ok f3 ->
  to_float (InfoMessage.calories m) = Ok f4 ->
  InfoMessage.get_message m
  = Ok ("Тип тренировки: " ++ InfoMessage.training_type m
        ++ "; Длительность: " ++ format_float f1 3
        ++ " ч.; Дистанция: " ++ format_float f2 3
        ++ " км; Ср. скорость: " ++ format_float f3 3
        ++ " км/ч; Потрачено ккал: " ++ format_float f4 3
        ++ ".").
Proof.
  intros H1 H2 H3 H4. rewrite get_message_eq. unfold format_number.
  rewrite H1, H2, H3, H4. reflexivity.
Qed.

(** ** The dispatcher *)

Lemma TRAINING_TYPES_unknown (tt : string) :
  ~ In tt registry_tags -> TRAINING_TYPES !! tt = None.
Proof.
  intro H. unfold TRAINING_TYPES.
  rewrite !lookup_insert_ne, lookup_singleton_ne; [reflexivity | ..];
    intro E; apply H; subst tt; simpl; auto.
Qed.

Lemma TRAINING_TYPES_known (tt : string) :
  In tt registry_tags ->
  tt = "RUN" /\ TRAINING_TYPES !! tt = Some Running_class
  \/ tt = "WLK" /\ TRAINING_TYPES !! tt = Some SportsWalking_class
  \/ tt = "SWM" /\ TRAINING_TYPES !! tt = Some Swimming_class.
Proof.
  intros [<- | [<- | [<- | []]]]; auto.
Qed.

Lemma TRAINING_TYPES_cases (tt : string) (c : class) :
  TRAINING_TYPES !! tt = Some c ->
  tt = "RUN" /\ c = Running_class
  \/ tt = "WLK" /\ c = SportsWalking_class
  \/ tt = "SWM" /\ c = Swimming_class.
Proof.
  unfold TRAINING_TYPES. intro H.
  apply lookup_insert_Some in H as [[<- <-] | [_ H]]; [auto |].
  apply lookup_insert_Some in H as [[<- <-] | [_ H]]; [auto |].
  apply lookup_singleton_Some in H as [<- <-]. auto.
Qed.

Lemma new_not_KeyError (c : class) (args : list number) (msg : string) :
  new c args <> Raise (KeyError msg).
Proof.
  destruct c; repeat (destruct args as [| ? args]; try discriminate).
Qed.

Lemma read_package_known (tt : string) (data : list number) (c : class) :
  TRAINING_TYPES !! tt = Some c -> read_package tt data = new c data.
Proof.
  intro H. unfold read_package, contains, getitem. rewrite H. reflexivity.
Qed.

Lemma read_package_Ok_inv (tt : string) (data : list number) (t : Training) :
  read_package tt data = Ok t ->
  exists c : class, TRAINING_TYPES !! tt = Some c /\ new c data = Ok t.
Proof.
  unfold read_package, contains, getitem.
  destruct (TRAINING_TYPES !! tt) as [c |]; [| discriminate].
  cbn [negb]. rewrite bind_Ok. eauto.
Qed.

Lemma new_type_of (c : class) (args : list number) (t : Training) :
  new c args = Ok t -> type_of t = c.
Proof.
  destruct c; repeat (destruct args as [| ? args]; try discriminate);
    intro H; injection H as <-; reflexivity.
Qed.

Lemma new_arity (c : class) (data : list number) :
  (length data = arity c ->
     exists t : Training,
       new c data = Ok t /\ type_of t = c /\ readings t = data)
  /\ (length data <> arity c -> new c data = Raise TypeError).
Proof.
  split.
  - intro Hlen.
    destruct c; cbn [arity] in Hlen;
      repeat (destruct data as [| ? data]; try discriminate Hlen);
      eexists; repeat split; reflexivity.
  - intro Hlen.
    destruct c; cbn [arity] in Hlen;
      repeat (destruct data as [| ? data];
              try reflexivity; try (contradiction Hlen; reflexivity)).
Qed.

Lemma new_outcome (c : class) (data : list number) :
  (exists t : Training, new c data = Ok t) \/ new c data = Raise TypeError.
Proof.
  destruct (Nat.eq_dec (length data) (arity c)) as [H | H].
  - left. destruct (proj1 (new_arity c data) H) as (t & Ht & _). eauto.
  - right. apply (proj2 (new_arity c data) H).
Qed.

Lemma registered_not_base (tt : string) (data : list number) (t : Training) :
  read_package tt data = Ok t -> type_of t <> Training_class.
Proof.
  intro H. apply read_package_Ok_inv in H as (c & Hc & Hn).
  apply new_type_of in Hn. rewrite Hn.
  destruct (TRAINING_TYPES_cases tt c Hc) as [[_ ->] | [[_ ->] | [_ ->]]];
    discriminate.
Qed.

(** C1. An unknown tag raises the [KeyError] that carries the tag, and no
    [Training] instance is returned; a tag of the registry never raises a
    [KeyError]. *)
Theorem read_package_unknown_type (tt : string) (data : list number) :
  (~ In tt registry_tags ->
     read_package tt data = Raise (KeyError ("Unknown training type: " ++ tt))
     /\ forall t : Training, read_package tt data <> Ok t)
  /\ (In tt registry_tags ->
        forall msg : string, read_package tt data <> Raise (KeyError msg)).
Proof.
  split.
  - intro H. unfold read_package, contains.
    rewrite (TRAINING_TYPES_unknown tt H). cbn [negb].
    split; [reflexivity | discriminate].
  - intros H msg.
    destruct (TRAINING_TYPES_known tt H) as [[_ E] | [[_ E] | [_ E]]];
      rewrite (read_package_known tt data _ E); apply new_not_KeyError.
Qed.

Lemma read_package_unknown_type_witness :
  (read_package "XYZ" [100 : number; 1 : number; 70 : number]
   = Raise (KeyError ("Unknown training type: " ++ "XYZ"))
   /\ forall t : Training,
        read_package "XYZ" [100 : number; 1 : number; 70 : number] <> Ok t)
  /\ forall msg : string,
       read_package "RUN" [15000 : number; 1 : number; 75 : number]
       <> Raise (KeyError msg).
Proof.
  split.
  - apply (read_package_unknown_type "XYZ").
    simpl. intros [H | [H | [H | []]]]; discriminate H.
  - apply (read_package_unknown_type "RUN").
    simpl. auto.
Defined.

(** ** The formula sets *)

Lemma LEN_STEP_eq (c : class) : LEN_STEP c = PyFloat (step_length c).
Proof. destruct c; reflexivity. Qed.

Lemma METER_PER_SECOND_COEFFICIENT_eq :
  METER_PER_SECOND_COEFFICIENT_expression = Ok (PyFloat 0.278)
  /\ METER_PER_SECOND_COEFFICIENT = PyFloat 0.278.
Proof. split; vm_compute; reflexivity. Qed.

Lemma get_distance_eq (self : Training) :
  get_distance self
  = (fa ← to_float (action self);
     Ok (PyFloat (fa * step_length (type_of self) / 1000))).
Proof.
  unfold get_distance. rewrite LEN_STEP_eq, mul_float_r.
  destruct (to_float (action self)) as [fa | e]; [| reflexivity].
  rewrite !bind_Ok. apply div_1000.
Qed.

Lemma get_distance_Ok_inv (self : Training) (v : number) :
  get_distance self = Ok v ->
  exists fa : float,
    to_float (action self) = Ok fa
    /\ v = PyFloat (fa * step_length (type_of self) / 1000).
Proof.
  rewrite get_distance_eq. intro H.
  apply bind_Ok_inv in H as (fa & Hfa & H). injection H as <-. eauto.
Qed.

Lemma get_distance_Raise (self : Training) (e : exn) :
  get_distance self = Raise e ->
  e = OverflowError /\ to_float (action self) = Raise OverflowError.
Proof.
  rewrite get_distance_eq. intro H.
  apply bind_Raise_inv in H as [H | (fa & _ & H)]; [| discriminate H].
  pose proof (to_float_Raise _ _ H) as ->. auto.
Qed.

Lemma get_mean_speed_dividend (self : Training) :
  get_mean_speed self = (p ← dividend self; truediv p (duration self)).
Proof.
  destruct self as [a d w | a d w | a d w h | a d w l c];
    cbn [get_mean_speed dividend duration]; try reflexivity.
  unfold Swimming_get_mean_speed, pool_kilometres.
  destruct (mul l c); reflexivity.
Qed.

Lemma pool_kilometres_float (l c v : number) :
  pool_kilometres l c = Ok v -> exists f : float, v = PyFloat f.
Proof.
  unfold pool_kilometres. intro H.
  apply bind_Ok_inv in H as (x & _ & H). exact (truediv_Ok_float _ _ _ H).
Qed.

Lemma pool_kilometres_Raise (l c : number) (e : exn) :
  pool_kilometres l c = Raise e -> e = OverflowError.
Proof.
  unfold pool_kilometres. intro H.
  apply bind_Raise_inv in H as [H | (x & Hx & H)];
    [exact (mul_Raise _ _ _ H) |].
  destruct (mul_Ok_cases _ _ _ Hx) as [(zl & zc & _ & _ & ->) | [f ->]].
  - cbn [truediv] in H.
    change (1000 =? 0)%Z with false in H. cbv iota in H.
    destruct (is_infinity _); [congruence | discriminate H].
  - rewrite div_1000 in H. discriminate H.
Qed.

Lemma dividend_float (self : Training) (v : number) :
  dividend self = Ok v -> exists f : float, v = PyFloat f.
Proof.
  destruct self as [a d w | a d w | a d w h | a d w l c]; cbn [dividend];
    intro H;
    try (apply get_distance_Ok_inv in H as (fa & _ & ->); eauto).
  exact (pool_kilometres_float _ _ _ H).
Qed.

Lemma dividend_Raise (self : Training) (e : exn) :
  dividend self = Raise e -> e = OverflowError.
Proof.
  destruct self as [a d w | a d w | a d w h | a d w l c]; cbn [dividend];
    intro H; try (apply get_distance_Raise in H as [-> _]; reflexivity).
  exact (pool_kilometres_Raise _ _ _ H).
Qed.

Lemma get_mean_speed_Ok (self : Training) (p fd : float) :
  dividend self = Ok (PyFloat p) ->
  to_float (duration self) = Ok fd -> is_zero fd = false ->
  get_mean_speed self = Ok (PyFloat (p / fd)).
Proof.
  intros Hp Hd Hz. rewrite get_mean_speed_dividend, Hp, bind_Ok.
  apply truediv_float_Ok; assumption.
Qed.

Lemma get_mean_speed_Ok_inv (self : Training) (v : number) :
  get_mean_speed self = Ok v ->
  exists p fd : float,
    dividend self = Ok (PyFloat p)
    /\ to_float (duration self) = Ok fd
    /\ is_zero fd = false
    /\ v = PyFloat (p / fd).
Proof.
  rewrite get_mean_speed_dividend. intro H.
  apply bind_Ok_inv in H as (x & Hx & H).
  destruct (dividend_float self x Hx) as [p ->].
  apply truediv_float_Ok_inv in H as (fd & Hd & Hz & ->).
  exists p, fd. auto.
Qed.

Lemma get_mean_speed_Raise (self : Training) (e : exn) :
  get_mean_speed self = Raise e -> arithmetic_fault e.
Proof.
  rewrite get_mean_speed_dividend. intro H.
  apply bind_Raise_inv in H as [H | (x & _ & H)].
  - right. exact (dividend_Raise _ _ H).
  - exact (truediv_Raise _ _ _ H).
Qed.

Lemma get_mean_speed_zero_duration (self : Training) :
  zero_number (duration self) ->
  (forall p : number,
     dividend self = Ok p -> get_mean_speed self = Raise ZeroDivisionError)
  /\ (forall e : exn,
        dividend self = Raise e ->
        get_mean_speed self = Raise e /\ e = OverflowError).
Proof.
  intro Hd. rewrite get_mean_speed_dividend. split.
  - intros p Hp. rewrite Hp, bind_Ok.
    destruct (dividend_float self p Hp) as [f ->].
    apply truediv_float_zero, Hd.
  - intros e He. rewrite He. split; [reflexivity |].
    exact (dividend_Raise _ _ He).
Qed.

(** C2, as the specification states it: the distance is not the step count
    times the step length in kilometres, and it is not returned for every
    context.  Three steps of running give a float other than
    [3 * 0.00065], whose value is not 0.00195; a step count too large for
    a float raises [OverflowError]. *)
Lemma get_distance_not_exact :
  (exists v : float,
     get_distance (Running 3 1 75) = Ok (PyFloat v)
     /\ (v =? 3 * STEP_LENGTH_KM Running_class)%float = false
     /\ ~ (exact v == 3 * (65 # 100000))%Q)
  /\ get_distance (Running (10 ^ 400) 1 75) = Raise OverflowError.
Proof.
  split; [| vm_compute; reflexivity].
  eexists. split; [vm_compute; reflexivity |].
  split; [vm_compute; reflexivity | vm_compute; discriminate].
Qed.

(** C2, amended.  For a step count that fits a float the distance is
    [action * LEN_STEP / 1000] in binary64 arithmetic, with a step of
    0.65 for running and walking and of 1.38 for swimming; an [int] step
    count too large for a float raises [OverflowError]. *)
Theorem get_distance_formula (self : Training) :
  (forall fa : float,
     to_float (action self) = Ok fa ->
     get_distance self
     = Ok (PyFloat (fa * step_length (type_of self) / 1000)))
  /\ (to_float (action self) = Raise OverflowError ->
      get_distance self = Raise OverflowError)
  /\ LEN_STEP (type_of self) = PyFloat (step_length (type_of self))
  /\ step_length Running_class = 0.65%float
  /\ step_length SportsWalking_class = 0.65%float
  /\ step_length Swimming_class = 1.38%float.
Proof.
  split; [| split; [| split; [apply LEN_STEP_eq | repeat split]]].
  - intros fa Hfa. rewrite get_distance_eq, Hfa. reflexivity.
  - intro Hfa. rewrite get_distance_eq, Hfa. reflexivity.
Qed.

Lemma get_distance_formula_witness :
  get_distance (Swimming 720 1 80 25 40)
  = Ok (PyFloat (720 * 1.38 / 1000))
  /\ get_distance (Running (10 ^ 400) 1 75) = Raise OverflowError.
Proof.
  split.
  - apply (proj1 (get_distance_formula (Swimming 720 1 80 25 40)) 720%float).
    vm_compute. reflexivity.
  - apply (proj1 (proj2 (get_distance_formula (Running (10 ^ 400) 1 75)))).
    vm_compute. reflexivity.
Defined.

(** C3, as the specification states it: with the positive duration 1 no
    mean speed is returned when a reading is too large for a float. *)
Lemma get_mean_speed_overflow :
  (exists fd : float,
     to_float (duration (Running (10 ^ 400) 1 75)) = Ok fd
     /\ float_positive fd = true)
  /\ get_mean_speed (Running (10 ^ 400) 1 75) = Raise OverflowError
  /\ get_mean_speed (Swimming 720 1 80 (10 ^ 400) 40) = Raise OverflowError.
Proof.
  split; [eexists; split; vm_compute; reflexivity |].
  split; vm_compute; reflexivity.
Qed.

(** C3, amended.  With a positive duration that fits a float, the mean
    speed of running and walking is the distance over the duration, and
    that of swimming is [length_pool * count_pool / 1000] over the
    duration, whatever the stroke count, all in binary64 arithmetic; when
    the distance, or the pool length of swimming, raises [OverflowError],
    so does the mean speed. *)
Theorem get_mean_speed_formula (self : Training) (fd : float) :
  to_float (duration self) = Ok fd ->
  float_positive fd = true ->
  (type_of self <> Swimming_class ->
     (forall dist : float,
        get_distance self = Ok (PyFloat dist) ->
        get_mean_speed self = Ok (PyFloat (dist / fd)))
     /\ (get_distance self = Raise OverflowError ->
         get_mean_speed self = Raise OverflowError))
  /\ (forall a d w l c : number,
        self = Swimming a d w l c ->
        (forall pool : float,
           pool_kilometres l c = Ok (PyFloat pool) ->
           get_mean_speed self = Ok (PyFloat (pool / fd)))
        /\ (pool_kilometres l c = Raise OverflowError ->
            get_mean_speed self = Raise OverflowError)
        /\ forall a' : number,
             get_mean_speed (Swimming a' d w l c) = get_mean_speed self).
Proof.
  intros Hd Hpos. pose proof (float_positive_nonzero fd Hpos) as Hz. split.
  - intro Hk.
    assert (Hdiv : dividend self = get_distance self).
    { destruct self; try reflexivity. contradiction Hk. reflexivity. }
    split.
    + intros dist Hdist. apply get_mean_speed_Ok; [| exact Hd | exact Hz].
      rewrite Hdiv. exact Hdist.
    + intro He. rewrite get_mean_speed_dividend, Hdiv, He. reflexivity.
  - intros a d w l c ->. split; [| split; [| reflexivity]].
    + intros pool Hp. apply get_mean_speed_Ok; assumption.
    + intro He. rewrite get_mean_speed_dividend. cbn [dividend].
      rewrite He. reflexivity.
Qed.

Lemma get_mean_speed_formula_witness :
  get_mean_speed (Running 15000 1 75) = Ok (PyFloat (9.75 / 1))
  /\ get_mean_speed (Swimming 720 1 80 25 40) = Ok (PyFloat (1 / 1)).
Proof.
  split.
  - apply (proj1 (proj1 (get_mean_speed_formula (Running 15000 1 75) 1%float
                           eq_refl eq_refl)
                    ltac:(discriminate))).
    vm_compute. reflexivity.
  - apply (proj1 (proj2 (get_mean_speed_formula (Swimming 720 1 80 25 40)
                           1%float eq_refl eq_refl)
                    720 1 80 25 40 eq_refl)).
    vm_compute. reflexivity.
Defined.

(** *** Calories *)

Lemma Running_get_spent_calories_eq (a d w : number) (v : float) :
  get_mean_speed (Running a d w) = Ok (PyFloat v) ->
  get_spent_calories (Running a d w)
  = (fw ← to_float w;
     fd ← to_float d;
     Ok (PyFloat ((18 * v + 1.79) * fw / 1000 * fd * 60))).
Proof.
  intro Hv. cbn [get_spent_calories]. rewrite Hv, bind_Ok.
  unfold Running_CALORIES_MEAN_SPEED_MULTIPLIER,
    Running_CALORIES_MEAN_SPEED_SHIFT, M_IN_KM, MINUTES_IN_HOUR.
  rewrite mul_18, bind_Ok. cbn [add to_float]. rewrite !bind_Ok.
  rewrite mul_float_l.
  destruct (to_float w) as [fw | e]; [| reflexivity]. rewrite !bind_Ok.
  rewrite div_1000, bind_Ok, mul_float_l.
  destruct (to_float d) as [fd | e]; [| reflexivity]. rewrite !bind_Ok.
  apply mul_60.
Qed.

Lemma Swimming_get_spent_calories_eq (a d w l c : number) (v : float) :
  get_mean_speed (Swimming a d w l c) = Ok (PyFloat v) ->
  get_spent_calories (Swimming a d w l c)
  = (fw ← to_float w;
     fd ← to_float d;
     Ok (PyFloat ((v + 1.1) * 2 * fw * fd))).
Proof.
  intro Hv. cbn [get_spent_calories]. rewrite Hv, bind_Ok.
  unfold Swimming_CALORIES_MEAN_SPEED_MULTIPLIER,
    Swimming_CALORIES_MEAN_SPEED_SHIFT.
  cbn [add to_float]. rewrite !bind_Ok. rewrite mul_2, bind_Ok, mul_float_l.
  destruct (to_float w) as [fw | e]; [| reflexivity]. rewrite !bind_Ok.
  rewrite mul_float_l. reflexivity.
Qed.

Lemma pow_float (x : float) (n : Z) :
  pow (PyFloat x) n = (y ← float_pow x n; Ok (PyFloat y)).
Proof. reflexivity. Qed.

Lemma SportsWalking_get_spent_calories_eq (a d w h : number) (v : float) :
  get_mean_speed (SportsWalking a d w h) = Ok (PyFloat v) ->
  get_spent_calories (SportsWalking a d w h)
  = (fw ← to_float w;
     p ← float_pow (v * 0.278) 2;
     t4 ← truediv h 100;
     t5 ← truediv (PyFloat p) t4;
     t6 ← mul t5 0.029%float;
     t7 ← mul t6 w;
     t8 ← add (PyFloat (0.035 * fw)) t7;
     t9 ← mul t8 d;
     mul t9 60).
Proof.
  intro Hv. cbn [get_spent_calories].
  unfold COEFFICIENT_WEIGHT_1, COEFFICIENT_WEIGHT_2, CM_IN_M, MINUTES_IN_HOUR,
    SPEED_DEGREE_INDICATOR.
  rewrite (proj2 METER_PER_SECOND_COEFFICIENT_eq).
  rewrite mul_float_l.
  destruct (to_float w) as [fw | e]; [| reflexivity]. rewrite !bind_Ok.
  rewrite Hv, bind_Ok. cbn [mul to_float]. rewrite !bind_Ok.
  rewrite pow_float.
  destruct (float_pow (v * 0.278) 2) as [p | e]; reflexivity.
Qed.

Lemma walking_tail (p hm fw fd : float) (w d : number) :
  to_float w = Ok fw -> to_float d = Ok fd ->
  (t6 ← mul (PyFloat (p / hm)) 0.029%float;
   t7 ← mul t6 w;
   t8 ← add (PyFloat (0.035 * fw)) t7;
   t9 ← mul t8 d;
   mul t9 60)
  = Ok (PyFloat ((0.035 * fw + p / hm * 0.029 * fw) * fd * 60)).
Proof.
  intros Hw Hd. cbn [mul to_float]. rewrite !bind_Ok.
  rewrite mul_float_l, Hw, !bind_Ok.
  cbn [add to_float]. rewrite !bind_Ok.
  rewrite mul_float_l, Hd, !bind_Ok. apply mul_60.
Qed.

Lemma running_speed (a d w : number) (fa fd : float) :
  to_float a = Ok fa -> to_float d = Ok fd -> is_zero fd = false ->
  get_mean_speed (Running a d w) = Ok (PyFloat (fa * 0.65 / 1000 / fd)).
Proof.
  intros Ha Hd Hz.
  apply (get_mean_speed_Ok (Running a d w)); [| exact Hd | exact Hz].
  cbn [dividend]. rewrite get_distance_eq. cbn [action]. rewrite Ha.
  reflexivity.
Qed.

Lemma walking_speed (a d w h : number) (fa fd : float) :
  to_float a = Ok fa -> to_float d = Ok fd -> is_zero fd = false ->
  get_mean_speed (SportsWalking a d w h)
  = Ok (PyFloat (fa * 0.65 / 1000 / fd)).
Proof.
  intros Ha Hd Hz.
  apply (get_mean_speed_Ok (SportsWalking a d w h)); [| exact Hd | exact Hz].
  cbn [dividend]. rewrite get_distance_eq. cbn [action]. rewrite Ha.
  reflexivity.
Qed.

Lemma read_package_RUN (a d w : number) :
  read_package "RUN" [a; d; w] = Ok (Running a d w).
Proof. reflexivity. Qed.

Lemma read_package_SWM (a d w l c : number) :
  read_package "SWM" [a; d; w; l; c] = Ok (Swimming a d w l c).
Proof. reflexivity. Qed.

(** C4, as the specification states it.  At the sample package
    [("RUN", [15000, 1, 75])] the calories are not 798.975, not even
    within a whole kilocalorie; and with the positive duration 1 no
    calories are returned when the step count is too large for a float. *)
Lemma running_sample_calories_not_798_975 :
  ~ (exists (t : Training) (c : float),
       read_package "RUN" [15000 : number; 1 : number; 75 : number] = Ok t
       /\ get_spent_calories t = Ok (PyFloat c)
       /\ (Qabs (exact c - 798.975) <= 1)%Q)
  /\ get_spent_calories (Running (10 ^ 400) 1 75) = Raise OverflowError.
Proof.
  split; [| vm_compute; reflexivity].
  intros (t & c & Ht & Hc & Hclose).
  rewrite read_package_RUN in Ht. injection Ht as <-.
  vm_compute in Hc. injection Hc as <-.
  vm_compute in Hclose. apply Hclose. reflexivity.
Qed.

(** C4, amended.  For readings that fit floats and a positive duration the
    calories of running are
    [(18 * mean_speed + 1.79) * weight / 1000 * duration * 60] in binary64
    arithmetic; a step count too large for a float raises
    [OverflowError].  For the sample package [("RUN", [15000, 1, 75])] the
    calories are [(18 * 9.750 + 1.79) * 75 / 1000 * 1 * 60], the float
    797.805. *)
Theorem running_calories_formula :
  (forall (a d w : number) (fa fd fw : float),
     to_float a = Ok fa -> to_float d = Ok fd -> to_float w = Ok fw ->
     float_positive fd = true ->
     exists v : float,
       get_mean_speed (Running a d w) = Ok (PyFloat v)
       /\ get_spent_calories (Running a d w)
          = Ok (PyFloat ((18 * v + 1.79) * fw / 1000 * fd * 60)))
  /\ (forall a d w : number,
        to_float a = Raise OverflowError ->
        get_spent_calories (Running a d w) = Raise OverflowError)
  /\ (exists (t : Training) (c : float),
        read_package "RUN" [15000 : number; 1 : number; 75 : number] = Ok t
        /\ get_mean_speed t = Ok (PyFloat 9.75)
        /\ get_spent_calories t = Ok (PyFloat c)
        /\ c = ((18 * 9.75 + 1.79) * 75 / 1000 * 1 * 60)%float
        /\ c = 797.805%float
        /\ format_float c 3 = "797.805").
Proof.
  split; [| split].
  - intros a d w fa fd fw Ha Hd Hw Hpos.
    pose proof (float_positive_nonzero fd Hpos) as Hz.
    pose proof (running_speed a d w fa fd Ha Hd Hz) as Hv.
    eexists. split; [exact Hv |].
    rewrite (Running_get_spent_calories_eq a d w _ Hv), Hw, Hd. reflexivity.
  - intros a d w Ha. cbn [get_spent_calories get_mean_speed].
    unfold Training_get_mean_speed. rewrite get_distance_eq. cbn [action].
    rewrite Ha. reflexivity.
  - eexists. eexists. split; [apply read_package_RUN |].
    repeat split; vm_compute; reflexivity.
Qed.

Lemma running_calories_formula_witness :
  exists v : float,
    get_mean_speed (Running 15000 1.5%float 75) = Ok (PyFloat v)
    /\ get_spent_calories (Running 15000 1.5%float 75)
       = Ok (PyFloat ((18 * v + 1.79) * 75 / 1000 * 1.5 * 60)).
Proof.
  apply (proj1 running_calories_formula
           15000 (PyFloat 1.5) 75 15000%float 1.5%float 75%float);
    vm_compute; reflexivity.
Defined.

(** C5, as the specification states it.  With the positive duration 1 and
    a height other than zero the calories of walking need not be returned:
    the height [5e-324] gives [height / 100 = 0.0] and a
    [ZeroDivisionError], the step count [10 ** 200] overflows the square
    and gives an [OverflowError]. *)
Lemma walking_calories_faults :
  get_spent_calories (SportsWalking 9000 1 75 5e-324%float)
  = Raise ZeroDivisionError
  /\ get_spent_calories (SportsWalking (10 ^ 200) 1 75 180)
     = Raise OverflowError.
Proof. split; vm_compute; reflexivity. Qed.

(** C5, amended.  For readings that fit floats and a positive duration,
    when the square [(mean_speed * 0.278) ** 2] does not overflow and
    [height / 100] is not zero in binary64 arithmetic, the calories of
    walking are
    [(0.035 * weight + (mean_speed * 0.278) ** 2 / (height / 100) * 0.029
      * weight) * duration * 60]
    in binary64 arithmetic; when the square overflows they raise
    [OverflowError], when [height / 100] is zero they raise
    [ZeroDivisionError].  The factor 0.278 is [round(1000 / 3600, 3)]. *)
Theorem walking_calories_formula
  (a d w h : number) (fa fd fw : float) :
  to_float a = Ok fa -> to_float d = Ok fd -> to_float w = Ok fw ->
  float_positive fd = true ->
  exists v : float,
    get_mean_speed (SportsWalking a d w h) = Ok (PyFloat v)
    /\ (forall p hm : float,
          float_pow (v * 0.278) 2 = Ok p ->
          truediv h 100 = Ok (PyFloat hm) ->
          is_zero hm = false ->
          get_spent_calories (SportsWalking a d w h)
          = Ok (PyFloat
                  ((0.035 * fw + p / hm * 0.029 * fw) * fd * 60)))
    /\ (float_pow (v * 0.278) 2 = Raise OverflowError ->
        get_spent_calories (SportsWalking a d w h) = Raise OverflowError)
    /\ (forall p hm : float,
          float_pow (v * 0.278) 2 = Ok p ->
          truediv h 100 = Ok (PyFloat hm) ->
          is_zero hm = true ->
          get_spent_calories (SportsWalking a d w h)
          = Raise ZeroDivisionError)
    /\ METER_PER_SECOND_COEFFICIENT_expression = Ok (PyFloat 0.278)
    /\ METER_PER_SECOND_COEFFICIENT = PyFloat 0.278.
Proof.
  intros Ha Hd Hw Hpos.
  pose proof (float_positive_nonzero fd Hpos) as Hz.
  pose proof (walking_speed a d w h fa fd Ha Hd Hz) as Hv.
  eexists. split; [exact Hv |].
  rewrite (SportsWalking_get_spent_calories_eq a d w h _ Hv), Hw, bind_Ok.
  split; [| split; [| split; [| exact METER_PER_SECOND_COEFFICIENT_eq]]].
  - intros p hm Hp Hhm Hnz. rewrite Hp, bind_Ok, Hhm, bind_Ok.
    rewrite (truediv_float_Ok p hm (PyFloat hm) eq_refl Hnz), bind_Ok.
    apply walking_tail; assumption.
  - intro Hp. rewrite Hp. reflexivity.
  - intros p hm Hp Hhm Hzero. rewrite Hp, bind_Ok, Hhm, bind_Ok.
    rewrite truediv_float_l. cbn [to_float]. rewrite bind_Ok, Hzero.
    reflexivity.
Qed.

Lemma walking_calories_formula_witness :
  exists v : float,
    get_mean_speed (SportsWalking 9000 1 75 180) = Ok (PyFloat v)
    /\ get_spent_calories (SportsWalking 9000 1 75 180)
       = Ok (PyFloat
               ((0.035 * 75 + (v * 0.278) * (v * 0.278) / 1.8 * 0.029 * 75)
                * 1 * 60)).
Proof.
  destruct (walking_calories_formula 9000 1 75 180 9000%float 1%float 75%float
              eq_refl eq_refl eq_refl eq_refl)
    as (v & Hv & Hc & _).
  exists v. split; [exact Hv |].
  assert (E : v = 5.85%float)
    by (assert (H : Ok (PyFloat v) = Ok (PyFloat 5.85))
          by (rewrite <- Hv; vm_compute; reflexivity);
        congruence).
  subst v.
  apply (Hc ((5.85 * 0.278) * (5.85 * 0.278))%float 1.8%float);
    vm_compute; reflexivity.
Defined.

(** C6, as the specification states it.  With the positive duration 1 no
    calories are returned when the pool length is too large for a
    float. *)
Lemma swimming_calories_overflow :
  get_mean_speed (Swimming 720 1 80 (10 ^ 400) 40) = Raise OverflowError
  /\ get_spent_calories (Swimming 720 1 80 (10 ^ 400) 40)
     = Raise OverflowError.
Proof. split; vm_compute; reflexivity. Qed.

(** C6, amended.  For a weight and a positive duration that fit floats,
    when [length_pool * count_pool / 1000] is returned, the calories of
    swimming are [(mean_speed + 1.1) * 2 * weight * duration] in binary64
    arithmetic on swimming's own mean speed; when the pool length raises
    [OverflowError], so do the calories.  For the sample package
    [("SWM", [720, 1, 80, 25, 40])] the mean speed is the float 1.0 and
    the calories the float 336.0, rendered [336.000]. *)
Theorem swimming_calories_formula :
  (forall (a d w l c : number) (fd fw pool : float),
     to_float d = Ok fd -> to_float w = Ok fw ->
     float_positive fd = true ->
     pool_kilometres l c = Ok (PyFloat pool) ->
     get_mean_speed (Swimming a d w l c) = Ok (PyFloat (pool / fd))
     /\ get_spent_calories (Swimming a d w l c)
        = Ok (PyFloat ((pool / fd + 1.1) * 2 * fw * fd)))
  /\ (forall a d w l c : number,
        pool_kilometres l c = Raise OverflowError ->
        get_spent_calories (Swimming a d w l c) = Raise OverflowError)
  /\ (exists t : Training,
        read_package "SWM"
          [720 : number; 1 : number; 80 : number; 25 : number; 40 : number]
        = Ok t
        /\ get_mean_speed t = Ok (PyFloat 1)
        /\ format_float 1 3 = "1.000"
        /\ get_spent_calories t = Ok (PyFloat 336)
        /\ format_float 336 3 = "336.000").
Proof.
  split; [| split].
  - intros a d w l c fd fw pool Hd Hw Hpos Hp.
    pose proof (float_positive_nonzero fd Hpos) as Hz.
    assert (Hv : get_mean_speed (Swimming a d w l c) = Ok (PyFloat (pool / fd)))
      by (apply get_mean_speed_Ok; assumption).
    split; [exact Hv |].
    rewrite (Swimming_get_spent_calories_eq a d w l c _ Hv), Hw, Hd.
    reflexivity.
  - intros a d w l c Hp. cbn [get_spent_calories].
    rewrite get_mean_speed_dividend. cbn [dividend]. rewrite Hp. reflexivity.
  - eexists. split; [apply read_package_SWM |].
    repeat split; vm_compute; reflexivity.
Qed.

Lemma swimming_calories_formula_witness :
  get_mean_speed (Swimming 720 1.5%float 80 25 40)
  = Ok (PyFloat (1 / 1.5))
  /\ get_spent_calories (Swimming 720 1.5%float 80 25 40)
     = Ok (PyFloat ((1 / 1.5 + 1.1) * 2 * 80 * 1.5)).
Proof.
  apply (proj1 swimming_calories_formula
           720 (PyFloat 1.5) 80 25 40 1.5%float 80%float 1%float);
    vm_compute; reflexivity.
Defined.

(** *** The duration factor *)

Lemma running_rate_eq (v : float) (w : number) :
  running_rate (PyFloat v) w
  = (fw ← to_float w; Ok (PyFloat ((18 * v + 1.79) * fw / 1000))).
Proof.
  unfold running_rate. rewrite mul_18, bind_Ok.
  cbn [add to_float]. rewrite !bind_Ok. rewrite mul_float_l.
  destruct (to_float w) as [fw | e]; [| reflexivity]. rewrite !bind_Ok.
  apply div_1000.
Qed.

Lemma in_minutes_eq (x : float) (d : number) :
  in_minutes (PyFloat x) d
  = (fd ← to_float d; Ok (PyFloat (x * fd * 60))).
Proof.
  unfold in_minutes. rewrite mul_float_l.
  destruct (to_float d) as [fd | e]; [| reflexivity]. rewrite !bind_Ok.
  apply mul_60.
Qed.

Lemma get_mean_speed_float (self : Training) (v : number) :
  get_mean_speed self = Ok v -> exists f : float, v = PyFloat f.
Proof.
  intro H. apply get_mean_speed_Ok_inv in H as (p & fd & _ & _ & _ & ->).
  eauto.
Qed.

(** C7, as the specification states it, at the sample swimming workout:
    the calories are the float 336.0, while the rate of the swimming
    formula times the duration times 60 is the float 20160.0. *)
Lemma swimming_sample_not_in_minutes :
  exists v rate : number,
    get_mean_speed (Swimming 720 1 80 25 40) = Ok v
    /\ swimming_rate v 80 = Ok rate
    /\ get_spent_calories (Swimming 720 1 80 25 40) = Ok (PyFloat 336)
    /\ in_minutes rate 1 = Ok (PyFloat 20160)
    /\ get_spent_calories (Swimming 720 1 80 25 40) <> in_minutes rate 1.
Proof.
  eexists. eexists.
  split; [vm_compute; reflexivity |].
  split; [vm_compute; reflexivity |].
  split; [vm_compute; reflexivity |].
  split; [vm_compute; reflexivity |].
  vm_compute. discriminate.
Qed.

(** C7, amended.  Whenever the mean speed is returned, the calories of
    running and of walking are the rate of the kind's formula times the
    duration times 60, the duration converted to minutes; the calories of
    swimming are the rate of its formula times the duration in hours, with
    no conversion to minutes.  The rates are those of the formulas:
    [(18 * v + 1.79) * weight / 1000] for running,
    [0.035 * weight + (v * 0.278) ** 2 / (height / 100) * 0.029 * weight]
    for walking and [(v + 1.1) * 2 * weight] for swimming. *)
Theorem calories_duration_factor :
  (forall a d w v : number,
     get_mean_speed (Running a d w) = Ok v ->
     get_spent_calories (Running a d w)
     = (rate ← running_rate v w; in_minutes rate d))
  /\ (forall a d w h v : number,
        get_mean_speed (SportsWalking a d w h) = Ok v ->
        get_spent_calories (SportsWalking a d w h)
        = (rate ← walking_rate v w h; in_minutes rate d))
  /\ (forall a d w l c v : number,
        get_mean_speed (Swimming a d w l c) = Ok v ->
        get_spent_calories (Swimming a d w l c)
        = (rate ← swimming_rate v w; mul rate d))
  /\ (forall (rate : float) (d : number) (fd : float),
        to_float d = Ok fd ->
        in_minutes (PyFloat rate) d = Ok (PyFloat (rate * fd * 60))).
Proof.
  split; [| split; [| split]];
    [| | | intros rate d fd Hd; rewrite in_minutes_eq, Hd; reflexivity].
  - intros a d w v Hv.
    destruct (get_mean_speed_float _ _ Hv) as [f ->].
    rewrite (Running_get_spent_calories_eq a d w f Hv), running_rate_eq.
    destruct (to_float w) as [fw | e]; [| reflexivity]. rewrite !bind_Ok.
    rewrite in_minutes_eq. reflexivity.
  - intros a d w h v Hv.
    destruct (get_mean_speed_float _ _ Hv) as [f ->].
    cbn [get_spent_calories]. unfold walking_rate, in_minutes.
    unfold COEFFICIENT_WEIGHT_1, COEFFICIENT_WEIGHT_2, CM_IN_M,
      MINUTES_IN_HOUR, SPEED_DEGREE_INDICATOR.
    rewrite (proj2 METER_PER_SECOND_COEFFICIENT_eq).
    destruct (mul 0.035%float w) as [t1 | e]; [| reflexivity].
    rewrite !bind_Ok, Hv, !bind_Ok.
    destruct (mul f 0.278%float) as [t2 | e]; [| reflexivity].
    rewrite !bind_Ok.
    destruct (pow t2 2) as [t3 | e]; [| reflexivity]. rewrite !bind_Ok.
    destruct (truediv h 100) as [t4 | e]; [| reflexivity]. rewrite !bind_Ok.
    destruct (truediv t3 t4) as [t5 | e]; [| reflexivity]. rewrite !bind_Ok.
    destruct (mul t5 0.029%float) as [t6 | e]; [| reflexivity].
    rewrite !bind_Ok.
    destruct (mul t6 w) as [t7 | e]; [| reflexivity]. rewrite !bind_Ok.
    destruct (add t1 t7) as [t8 | e]; reflexivity.
  - intros a d w l c v Hv.
    cbn [get_spent_calories]. unfold swimming_rate.
    unfold Swimming_CALORIES_MEAN_SPEED_MULTIPLIER,
      Swimming_CALORIES_MEAN_SPEED_SHIFT.
    rewrite Hv, bind_Ok.
    destruct (add v 1.1%float) as [x1 | e]; [| reflexivity].
    rewrite !bind_Ok.
    destruct (mul x1 2) as [x2 | e]; [| reflexivity]. rewrite !bind_Ok.
    destruct (mul x2 w) as [x3 | e]; reflexivity.
Qed.

Lemma calories_duration_factor_witness :
  get_spent_calories (Running 15000 1 75)
  = (rate ← running_rate (PyFloat 9.75) 75; in_minutes rate 1)
  /\ get_spent_calories (Swimming 720 1 80 25 40)
     = (rate ← swimming_rate (PyFloat 1) 80; mul rate 1).
Proof.
  split.
  - apply (proj1 calories_duration_factor 15000 1 75 (PyFloat 9.75)).
    vm_compute. reflexivity.
  - apply (proj1 (proj2 (proj2 calories_duration_factor))
             720 1 80 25 40 (PyFloat 1)).
    vm_compute. reflexivity.
Defined.

(** ** Faults *)

(** One step of a raising sequence: either the step raises, or it returns
    and what follows raises. *)
Ltac raising_step H tac :=
  apply bind_Raise_inv in H as [H | (? & _ & H)]; [tac H |].

Ltac by_mean_speed H := exact (get_mean_speed_Raise _ _ H).
Ltac by_truediv H := exact (truediv_Raise _ _ _ H).
Ltac by_pow H := exact (pow_Raise _ _ _ H).
Ltac by_mul H := right; exact (mul_Raise _ _ _ H).
Ltac by_add H := right; exact (add_Raise _ _ _ H).

Lemma get_distance_fault (self : Training) (e : exn) :
  get_distance self = Raise e -> arithmetic_fault e.
Proof. intro H. right. exact (proj1 (get_distance_Raise _ _ H)). Qed.

Lemma get_spent_calories_fault (self : Training) (e : exn) :
  type_of self <> Training_class ->
  get_spent_calories self = Raise e -> arithmetic_fault e.
Proof.
  intros Hk H.
  destruct self as [a d w | a d w | a d w h | a d w l c];
    cbn [get_spent_calories] in H.
  - contradiction Hk. reflexivity.
  - raising_step H by_mean_speed. raising_step H by_mul.
    raising_step H by_add. raising_step H by_mul.
    raising_step H by_truediv. raising_step H by_mul. by_mul H.
  - raising_step H by_mul. raising_step H by_mean_speed.
    raising_step H by_mul. raising_step H by_pow.
    raising_step H by_truediv. raising_step H by_truediv.
    raising_step H by_mul. raising_step H by_mul.
    raising_step H by_add. raising_step H by_mul. by_mul H.
  - raising_step H by_mean_speed. raising_step H by_add.
    raising_step H by_mul. raising_step H by_mul. by_mul H.
Qed.

Lemma get_spent_calories_float (self : Training) (c : number) :
  get_spent_calories self = Ok c -> exists f : float, c = PyFloat f.
Proof.
  intro H.
  destruct self as [a d w | a d w | a d w h | a d w l p];
    cbn [get_spent_calories] in H.
  - discriminate H.
  - apply bind_Ok_inv in H as (v & _ & H).
    apply bind_Ok_inv in H as (x1 & _ & H).
    apply bind_Ok_inv in H as (x2 & _ & H).
    apply bind_Ok_inv in H as (x3 & _ & H).
    apply bind_Ok_inv in H as (x4 & H4 & H).
    apply bind_Ok_inv in H as (x5 & H5 & H).
    destruct (truediv_Ok_float _ _ _ H4) as [f4 ->].
    apply mul_float_l_Ok_inv in H5 as (y5 & _ & ->).
    apply mul_float_l_Ok_inv in H as (y & _ & ->). eauto.
  - apply bind_Ok_inv in H as (t1 & H1 & H).
    apply bind_Ok_inv in H as (v & _ & H).
    apply bind_Ok_inv in H as (t2 & _ & H).
    apply bind_Ok_inv in H as (t3 & _ & H).
    apply bind_Ok_inv in H as (t4 & _ & H).
    apply bind_Ok_inv in H as (t5 & _ & H).
    apply bind_Ok_inv in H as (t6 & _ & H).
    apply bind_Ok_inv in H as (t7 & _ & H).
    apply bind_Ok_inv in H as (t8 & H8 & H).
    apply bind_Ok_inv in H as (t9 & H9 & H).
    apply mul_float_l_Ok_inv in H1 as (y1 & _ & ->).
    apply add_float_l_Ok_inv in H8 as (y8 & _ & ->).
    apply mul_float_l_Ok_inv in H9 as (y9 & _ & ->).
    apply mul_float_l_Ok_inv in H as (y & _ & ->). eauto.
  - apply bind_Ok_inv in H as (v & Hv & H).
    apply bind_Ok_inv in H as (x1 & H1 & H).
    apply bind_Ok_inv in H as (x2 & H2 & H).
    apply bind_Ok_inv in H as (x3 & H3 & H).
    destruct (get_mean_speed_float _ _ Hv) as [f ->].
    apply add_float_l_Ok_inv in H1 as (y1 & _ & ->).
    apply mul_float_l_Ok_inv in H2 as (y2 & _ & ->).
    apply mul_float_l_Ok_inv in H3 as (y3 & _ & ->).
    apply mul_float_l_Ok_inv in H as (y & _ & ->). eauto.
Qed.

Lemma show_training_info_Ok_inv (self : Training) (info : InfoMessage.t) :
  show_training_info self = Ok info ->
  InfoMessage.training_type info = class_name (type_of self)
  /\ InfoMessage.duration info = duration self
  /\ get_distance self = Ok (InfoMessage.distance info)
  /\ get_mean_speed self = Ok (InfoMessage.speed info)
  /\ get_spent_calories self = Ok (InfoMessage.calories info).
Proof.
  intro Hs. unfold show_training_info in Hs.
  apply bind_Ok_inv in Hs as (dist & Hdist & Hs).
  apply bind_Ok_inv in Hs as (v & Hv & Hs).
  apply bind_Ok_inv in Hs as (c & Hc & Hs).
  injection Hs as <-. cbn. auto.
Qed.

Lemma show_training_info_Raise (self : Training) (e : exn) :
  show_training_info self = Raise e ->
  arithmetic_fault e
  \/ type_of self = Training_class
     /\ e = NotImplementedError "Определите get_spent_calories в Training.".
Proof.
  intro H. unfold show_training_info in H.
  apply bind_Raise_inv in H as [H | (dist & _ & H)];
    [left; exact (get_distance_fault _ _ H) |].
  apply bind_Raise_inv in H as [H | (v & _ & H)];
    [left; exact (get_mean_speed_Raise _ _ H) |].
  apply bind_Raise_inv in H as [H | (c & _ & H)]; [| discriminate H].
  destruct self as [a d w | a d w | a d w h | a d w l p].
  - right. cbn [get_spent_calories] in H. injection H as <-. auto.
  - left. apply (get_spent_calories_fault _ e) in H; [exact H | discriminate].
  - left. apply (get_spent_calories_fault _ e) in H; [exact H | discriminate].
  - left. apply (get_spent_calories_fault _ e) in H; [exact H | discriminate].
Qed.

Lemma show_training_info_raises (self : Training) :
  (exists e : exn, arithmetic_fault e /\ get_mean_speed self = Raise e)
  \/ (exists e : exn, arithmetic_fault e /\ get_spent_calories self = Raise e) ->
  exists e : exn, arithmetic_fault e /\ show_training_info self = Raise e.
Proof.
  intro H. unfold show_training_info.
  destruct (get_distance self) as [dist | e0] eqn:Hd.
  2: { exists e0. split; [exact (get_distance_fault _ _ Hd) | reflexivity]. }
  rewrite bind_Ok.
  destruct (get_mean_speed self) as [v | e1] eqn:Hv.
  2: { exists e1. split; [exact (get_mean_speed_Raise _ _ Hv) | reflexivity]. }
  rewrite bind_Ok.
  destruct H as [(e & _ & He) | (e & Hf & He)]; [discriminate He |].
  exists e. rewrite He. split; [exact Hf | reflexivity].
Qed.

Lemma main_Raise (self : Training) (e : exn) (stdout : list string) :
  show_training_info self = Raise e -> main self stdout = Raise e.
Proof. intro H. unfold main. rewrite H. reflexivity. Qed.

Lemma truediv_zero_height (h : number) :
  zero_number h ->
  exists z : float, truediv h CM_IN_M = Ok (PyFloat z) /\ is_zero z = true.
Proof.
  intros [-> | [-> | ->]]; eexists; split; vm_compute; reflexivity.
Qed.

Lemma walking_zero_height_division (a d w h : number) (fw v p : float) :
  zero_number h ->
  to_float w = Ok fw ->
  get_mean_speed (SportsWalking a d w h) = Ok (PyFloat v) ->
  float_pow (v * 0.278) 2 = Ok p ->
  get_spent_calories (SportsWalking a d w h) = Raise ZeroDivisionError.
Proof.
  intros Hh Hw Hv Hp.
  destruct (truediv_zero_height h Hh) as (z & Hz & Hzero).
  rewrite (SportsWalking_get_spent_calories_eq a d w h v Hv), Hw, bind_Ok.
  rewrite Hp, bind_Ok. change (PyInt 100) with CM_IN_M.
  rewrite Hz, bind_Ok, truediv_float_l. cbn [to_float].
  rewrite bind_Ok, Hzero. reflexivity.
Qed.

Lemma walking_zero_height_fault (a d w h : number) :
  zero_number h ->
  exists e : exn,
    arithmetic_fault e /\ get_spent_calories (SportsWalking a d w h) = Raise e.
Proof.
  intro Hh.
  destruct (to_float_cases w) as [[fw Hw] | Hw].
  2: { exists OverflowError. split; [right; reflexivity |].
       cbn [get_spent_calories]. unfold COEFFICIENT_WEIGHT_1.
       rewrite mul_float_l, Hw. reflexivity. }
  destruct (get_mean_speed (SportsWalking a d w h)) as [v | e] eqn:Hv.
  2: { exists e. split; [exact (get_mean_speed_Raise _ _ Hv) |].
       cbn [get_spent_calories]. unfold COEFFICIENT_WEIGHT_1.
       rewrite mul_float_l, Hw, bind_Ok, bind_Ok.
       cbn [get_mean_speed] in Hv |- *. rewrite Hv. reflexivity. }
  destruct (get_mean_speed_float _ _ Hv) as [f ->].
  destruct (float_pow (f * 0.278) 2) as [p | e] eqn:Hp.
  - exists ZeroDivisionError. split; [left; reflexivity |].
    exact (walking_zero_height_division a d w h fw f p Hh Hw Hv Hp).
  - exists e. split; [exact (float_pow_Raise _ _ _ Hp) |].
    rewrite (SportsWalking_get_spent_calories_eq a d w h f Hv), Hw, bind_Ok.
    rewrite Hp. reflexivity.
Qed.

(** C9, as the specification states it.  With a zero duration, or with a
    zero height, the fault need not be a division fault: what is evaluated
    before the division may raise [OverflowError] first. *)
Lemma zero_division_preceded_by_overflow :
  get_mean_speed (Running (10 ^ 400) 0 70) = Raise OverflowError
  /\ get_spent_calories (SportsWalking (10 ^ 200) 1 75 0)
     = Raise OverflowError.
Proof. split; vm_compute; reflexivity. Qed.

(** C9, amended.  With a zero duration the mean speed of every kind is
    never returned: it raises [ZeroDivisionError] when its dividend (the
    distance, for swimming the pool length) is returned, and the
    [OverflowError] of the dividend otherwise.  With a zero height the
    calories of walking are never returned: they raise
    [ZeroDivisionError] when the weight fits a float, the mean speed is
    returned and its square does not overflow, and [ZeroDivisionError] or
    [OverflowError] in every case.  Neither [show_training_info] nor [main]
    catches the fault: both raise a [ZeroDivisionError] or an
    [OverflowError] and nothing is printed. *)
Theorem division_faults_propagate (self : Training) :
  (zero_number (duration self) ->
     (forall p : number,
        dividend self = Ok p ->
        get_mean_speed self = Raise ZeroDivisionError)
     /\ (forall e : exn,
           dividend self = Raise e ->
           get_mean_speed self = Raise e /\ e = OverflowError)
     /\ exists e : exn,
          arithmetic_fault e
          /\ show_training_info self = Raise e
          /\ forall stdout : list string, main self stdout = Raise e)
  /\ (forall a d w h : number,
        self = SportsWalking a d w h ->
        zero_number h ->
        (forall fw v p : float,
           to_float w = Ok fw ->
           get_mean_speed self = Ok (PyFloat v) ->
           float_pow (v * 0.278) 2 = Ok p ->
           get_spent_calories self = Raise ZeroDivisionError)
        /\ (exists e : exn,
              arithmetic_fault e /\ get_spent_calories self = Raise e)
        /\ exists e : exn,
             arithmetic_fault e
             /\ show_training_info self = Raise e
             /\ forall stdout : list string, main self stdout = Raise e).
Proof.
  split.
  - intro Hd.
    destruct (get_mean_speed_zero_duration self Hd) as [Hzero Hover].
    split; [exact Hzero | split; [exact Hover |]].
    assert (Hv : exists e, arithmetic_fault e /\ get_mean_speed self = Raise e).
    { destruct (dividend self) as [p | e] eqn:Hp.
      - exists ZeroDivisionError. split; [left; reflexivity | eauto].
      - exists e. destruct (Hover e eq_refl) as [Hr ->].
        split; [right; reflexivity | exact Hr]. }
    destruct (show_training_info_raises self (or_introl Hv)) as (e & Hf & Hs).
    exists e. split; [exact Hf | split; [exact Hs |]].
    intro stdout. apply main_Raise, Hs.
  - intros a d w h -> Hh.
    pose proof (walking_zero_height_fault a d w h Hh) as Hc.
    split; [| split; [exact Hc |]].
    { intros fw v p. apply walking_zero_height_division, Hh. }
    destruct (show_training_info_raises _ (or_intror Hc)) as (e & Hf & Hs).
    exists e. split; [exact Hf | split; [exact Hs |]].
    intro stdout. apply main_Raise, Hs.
Qed.

Lemma division_faults_propagate_witness :
  get_mean_speed (Running 100 0 70) = Raise ZeroDivisionError
  /\ get_mean_speed (Swimming 720 0%float 80 25 40) = Raise ZeroDivisionError
  /\ get_spent_calories (SportsWalking 9000 1 75 0) = Raise ZeroDivisionError.
Proof.
  split; [| split].
  - apply (proj1 (proj1 (division_faults_propagate (Running 100 0 70))
                    (or_introl eq_refl)) (PyFloat 0.065)).
    vm_compute. reflexivity.
  - apply (proj1 (proj1 (division_faults_propagate
                           (Swimming 720 0%float 80 25 40))
                    (or_intror (or_introl eq_refl))) (PyFloat 1)).
    vm_compute. reflexivity.
  - apply (proj1 (proj2 (division_faults_propagate
                           (SportsWalking 9000 1 75 0))
                    9000 1 75 0 eq_refl (or_introl eq_refl))
             75%float 5.85%float ((5.85 * 0.278) * (5.85 * 0.278))%float);
      vm_compute; reflexivity.
Defined.

(** ** The report *)

(** A report that [show_training_info] returns always renders: the
    duration was converted to a float by the mean speed, and the three
    computed fields are floats. *)
Lemma report_renders (self : Training) (info : InfoMessage.t) :
  show_training_info self = Ok info ->
  exists f1 f2 f3 f4 : float,
    to_float (InfoMessage.duration info) = Ok f1
    /\ InfoMessage.distance info = PyFloat f2
    /\ InfoMessage.speed info = PyFloat f3
    /\ InfoMessage.calories info = PyFloat f4
    /\ InfoMessage.get_message info
       = Ok ("Тип тренировки: " ++ InfoMessage.training_type info
             ++ "; Длительность: " ++ format_float f1 3
             ++ " ч.; Дистанция: " ++ format_float f2 3
             ++ " км; Ср. скорость: " ++ format_float f3 3
             ++ " км/ч; Потрачено ккал: " ++ format_float f4 3
             ++ ".").
Proof.
  intro Hs.
  destruct (show_training_info_Ok_inv self info Hs)
    as (_ & Hdur & Hdist & Hv & Hc).
  destruct (get_distance_Ok_inv _ _ Hdist) as (fa & _ & E2).
  destruct (get_mean_speed_Ok_inv _ _ Hv) as (p & fd & _ & Hd & _ & E3).
  destruct (get_spent_calories_float _ _ Hc) as (f4 & E4).
  rewrite <- Hdur in Hd.
  exists fd, (fa * step_length (type_of self) / 1000)%float, (p / fd)%float, f4.
  split; [exact Hd |]. split; [exact E2 |]. split; [exact E3 |].
  split; [exact E4 |].
  apply get_message_floats; [exact Hd | rewrite E2 | rewrite E3 | rewrite E4];
    reflexivity.
Qed.






(** C10. The kind shown by the report of a dispatched workout is the name
    of its class ([Running], [SportsWalking], [Swimming]), not the tag. *)
Theorem report_kind_is_class_name
  (tt : string) (data : list number) (t : Training) (info : InfoMessage.t) :
  read_package tt data = Ok t ->
  show_training_info t = Ok info ->
  (tt = "RUN" /\ InfoMessage.training_type info = "Running"
   \/ tt = "WLK" /\ InfoMessage.training_type info = "SportsWalking"
   \/ tt = "SWM" /\ InfoMessage.training_type info = "Swimming")
  /\ InfoMessage.training_type info = class_name (type_of t)
  /\ InfoMessage.training_type info <> tt
  /\ exists rest : string,
       InfoMessage.get_message info
       = Ok ("Тип тренировки: " ++ InfoMessage.training_type info ++ rest).
Proof.
  intros Hr Hs.
  apply read_package_Ok_inv in Hr as (c & Hc & Hn).
  apply new_type_of in Hn.
  pose proof (proj1 (show_training_info_Ok_inv t info Hs)) as Hk.
  rewrite Hn in Hk.
  assert (Hcases :
    tt = "RUN" /\ InfoMessage.training_type info = "Running"
    \/ tt = "WLK" /\ InfoMessage.training_type info = "SportsWalking"
    \/ tt = "SWM" /\ InfoMessage.training_type info = "Swimming").
  { destruct (TRAINING_TYPES_cases tt c Hc) as [[-> ->] | [[-> ->] | [-> ->]]];
      rewrite Hk; auto. }
  split; [exact Hcases |].
  split; [rewrite Hn; exact Hk |].
  split.
  - destruct Hcases as [[-> ->] | [[-> ->] | [-> ->]]]; discriminate.
  - destruct (report_renders t info Hs) as (f1 & f2 & f3 & f4 & _ & _ & _ & _ & E).
    eexists. exact E.
Qed.

Lemma report_kind_is_class_name_witness :
  exists info : InfoMessage.t,
    show_training_info (Running 15000 1 75) = Ok info
    /\ InfoMessage.training_type info = "Running"
    /\ InfoMessage.training_type info <> "RUN".
Proof.
  assert (Hs : exists info, show_training_info (Running 15000 1 75) = Ok info)
    by (eexists; vm_compute; reflexivity).
  destruct Hs as [info Hs]. exists info.
  destruct (report_kind_is_class_name "RUN"
              [15000 : number; 1 : number; 75 : number]
              (Running 15000 1 75) info eq_refl Hs)
    as (_ & Hk & Hne & _).
  split; [exact Hs | split; [exact Hk | exact Hne]].
Defined.

(** ** Further properties of the dispatcher *)

(** X1. For a registered tag the constructor is called with the readings
    spread as positional arguments: with exactly as many readings as
    [__init__] takes, the instance has the registered class and its
    attributes are the readings in order; with any other number of readings
    the call is a [TypeError]. *)
Theorem read_package_binds_readings
  (tt : string) (c : class) (data : list number) :
  TRAINING_TYPES !! tt = Some c ->
  (length data = arity c ->
     exists t : Training,
       read_package tt data = Ok t /\ type_of t = c /\ readings t = data)
  /\ (length data <> arity c -> read_package tt data = Raise TypeError).
Proof.
  intro Hc. rewrite (read_package_known tt data c Hc). apply new_arity.
Qed.

Lemma read_package_binds_readings_witness :
  (exists t : Training,
     read_package "WLK" [9000 : number; 1 : number; 75 : number; 180 : number]
     = Ok t
     /\ type_of t = SportsWalking_class
     /\ readings t = [9000 : number; 1 : number; 75 : number; 180 : number])
  /\ read_package "SWM" [720 : number; 1 : number; 80 : number]
     = Raise TypeError.
Proof.
  split.
  - apply (read_package_binds_readings "WLK" SportsWalking_class
             [9000 : number; 1 : number; 75 : number; 180 : number] eq_refl).
    reflexivity.
  - apply (read_package_binds_readings "SWM" Swimming_class
             [720 : number; 1 : number; 80 : number] eq_refl).
    discriminate.
Defined.

(** X2. Every instance of a registered class is what [read_package] returns
    for some tag on the instance's own attributes. *)
Theorem read_package_readings (self : Training) :
  type_of self <> Training_class ->
  exists tt : string,
    In tt registry_tags /\ read_package tt (readings self) = Ok self.
Proof.
  intro Hk. destruct self as [a d w | a d w | a d w h | a d w l c].
  - contradiction Hk. reflexivity.
  - exists "RUN". split; [simpl; auto | reflexivity].
  - exists "WLK". split; [simpl; auto | reflexivity].
  - exists "SWM". split; [simpl; auto | reflexivity].
Qed.

Lemma read_package_readings_witness :
  exists tt : string,
    In tt registry_tags
    /\ read_package tt (readings (Swimming 720 1 80 25 40))
       = Ok (Swimming 720 1 80 25 40).
Proof.
  apply (read_package_readings (Swimming 720 1 80 25 40)). discriminate.
Defined.

(** ** Further properties of the report *)

Lemma show_training_info_Running (a d w : number) :
  (exists info : InfoMessage.t, show_training_info (Running a d w) = Ok info)
  <-> exists fa fd fw : float,
        to_float a = Ok fa /\ to_float d = Ok fd /\ is_zero fd = false
        /\ to_float w = Ok fw.
Proof.
  split.
  - intros [info Hs].
    destruct (show_training_info_Ok_inv _ _ Hs) as (_ & _ & Hdist & Hv & Hc).
    destruct (get_distance_Ok_inv _ _ Hdist) as (fa & Ha & _).
    destruct (get_mean_speed_Ok_inv _ _ Hv) as (p & fd & _ & Hd & Hz & E).
    exists fa, fd. cbn [action duration] in Ha, Hd.
    destruct (to_float_cases w) as [[fw Hw] | Hw]; [exists fw; auto |].
    exfalso. rewrite E in Hv.
    rewrite (Running_get_spent_calories_eq a d w _ Hv), Hw in Hc.
    discriminate Hc.
  - intros (fa & fd & fw & Ha & Hd & Hz & Hw).
    pose proof (running_speed a d w fa fd Ha Hd Hz) as Hv.
    unfold show_training_info. rewrite get_distance_eq. cbn [action].
    rewrite Ha, !bind_Ok, Hv, bind_Ok.
    rewrite (Running_get_spent_calories_eq a d w _ Hv), Hw, Hd, !bind_Ok.
    eexists. reflexivity.
Qed.

(** X3. A report that [show_training_info] returns carries the class
    name, the duration as given and the values of the three getters, and
    it always renders.  The exceptions of [show_training_info] are
    [ZeroDivisionError] and [OverflowError], and, only for an instance of
    [Training] itself, which never gets a report, [NotImplementedError].
    For running a report is returned exactly when the three readings fit
    floats and the duration is not zero. *)
Theorem show_training_info_outcome (self : Training) :
  (forall info : InfoMessage.t,
     show_training_info self = Ok info ->
     InfoMessage.training_type info = class_name (type_of self)
     /\ InfoMessage.duration info = duration self
     /\ get_distance self = Ok (InfoMessage.distance info)
     /\ get_mean_speed self = Ok (InfoMessage.speed info)
     /\ get_spent_calories self = Ok (InfoMessage.calories info)
     /\ exists line : string, InfoMessage.get_message info = Ok line)
  /\ (forall e : exn,
        show_training_info self = Raise e ->
        e = ZeroDivisionError \/ e = OverflowError
        \/ type_of self = Training_class
           /\ e = NotImplementedError
                    "Определите get_spent_calories в Training.")
  /\ (type_of self = Training_class ->
      forall info : InfoMessage.t, show_training_info self <> Ok info)
  /\ (forall a d w : number,
        self = Running a d w ->
        (exists info : InfoMessage.t, show_training_info self = Ok info)
        <-> exists fa fd fw : float,
              to_float a = Ok fa /\ to_float d = Ok fd
              /\ is_zero fd = false /\ to_float w = Ok fw).
Proof.
  split; [| split; [| split]].
  - intros info Hs.
    destruct (show_training_info_Ok_inv self info Hs)
      as (H1 & H2 & H3 & H4 & H5).
    destruct (report_renders self info Hs)
      as (f1 & f2 & f3 & f4 & _ & _ & _ & _ & E).
    repeat (split; [assumption |]). eexists. exact E.
  - intros e He.
    destruct (show_training_info_Raise self e He) as [[H | H] | H]; auto.
  - intros Hk info Hs.
    destruct (show_training_info_Ok_inv self info Hs) as (_ & _ & _ & _ & Hc).
    destruct self as [a d w | a d w | a d w h | a d w l c];
      try discriminate Hk.
    discriminate Hc.
  - intros a d w ->. apply show_training_info_Running.
Qed.

Lemma show_training_info_outcome_witness :
  (exists line : string,
     forall info : InfoMessage.t,
       show_training_info (Running 15000 1 75) = Ok info ->
       InfoMessage.get_message info = Ok line)
  /\ (exists info : InfoMessage.t,
        show_training_info (Running 15000 1.5%float 75) = Ok info).
Proof.
  split.
  - assert (Hs : exists info, show_training_info (Running 15000 1 75) = Ok info)
      by (eexists; vm_compute; reflexivity).
    destruct Hs as [info Hs].
    destruct (proj1 (show_training_info_outcome (Running 15000 1 75)) info Hs)
      as (_ & _ & _ & _ & _ & line & Hl).
    exists line. intros info' Hs'. rewrite Hs in Hs'. injection Hs' as <-.
    exact Hl.
  - apply (proj2 (proj2 (proj2 (show_training_info_outcome
                                  (Running 15000 1.5%float 75))))
             15000 (PyFloat 1.5) 75 eq_refl).
    exists 15000%float, 1.5%float, 75%float.
    repeat split; vm_compute; reflexivity.
Defined.

(** ** [main] and the script *)

Lemma main_Ok
  (training : Training) (info : InfoMessage.t) (stdout : list string) :
  show_training_info training = Ok info ->
  exists line : string,
    InfoMessage.get_message info = Ok line
    /\ main training stdout = Ok (stdout ++ [line])%list.
Proof.
  intro Hs.
  destruct (report_renders training info Hs)
    as (f1 & f2 & f3 & f4 & _ & _ & _ & _ & Hl).
  eexists. split; [exact Hl |].
  unfold main. rewrite Hs, bind_Ok, Hl, bind_Ok. reflexivity.
Qed.

(** X4. [main] prints one line, the message of [show_training_info], after
    whatever was printed before; it fails exactly when
    [show_training_info] fails, with the same exception, since rendering a
    report that [show_training_info] returned never raises. *)
Theorem main_outcome (training : Training) (stdout : list string) :
  (forall info : InfoMessage.t,
     show_training_info training = Ok info ->
     exists line : string,
       InfoMessage.get_message info = Ok line
       /\ main training stdout = Ok (stdout ++ [line])%list)
  /\ (forall e : exn,
        show_training_info training = Raise e <->
        main training stdout = Raise e).
Proof.
  split.
  - intros info Hs. exact (main_Ok training info stdout Hs).
  - intro e. split; [apply main_Raise |].
    destruct (show_training_info training) as [info | e'] eqn:Hs.
    + destruct (main_Ok training info stdout Hs) as (line & _ & Hm).
      rewrite Hm. discriminate.
    + rewrite (main_Raise training e' stdout Hs).
      intro H. injection H as <-. reflexivity.
Qed.

Lemma main_outcome_witness :
  exists line : string,
    main (Running 15000 1 75) ["earlier"] = Ok ["earlier"; line].
Proof.
  assert (Hs : exists info, show_training_info (Running 15000 1 75) = Ok info)
    by (eexists; vm_compute; reflexivity).
  destruct Hs as [info Hs].
  destruct (proj1 (main_outcome (Running 15000 1 75) ["earlier"]) info Hs)
    as (line & _ & Hm).
  exists line. exact Hm.
Defined.

(** X5. Reading a package and reporting it either prints one line or
    raises one of four exceptions: the [KeyError] of an unknown tag, the
    [TypeError] of a wrong number of readings, [ZeroDivisionError] or
    [OverflowError].  [NotImplementedError] is never raised, the base
    class not being registered. *)
Theorem package_outcome
  (workout_type : string) (workout_data : list number)
  (stdout : list string) :
  let outcome :=
    workout ← read_package workout_type workout_data; main workout stdout in
  (exists line : string, outcome = Ok (stdout ++ [line])%list)
  \/ outcome = Raise (KeyError ("Unknown training type: " ++ workout_type))
  \/ outcome = Raise TypeError
  \/ outcome = Raise ZeroDivisionError
  \/ outcome = Raise OverflowError.
Proof.
  cbn zeta.
  destruct (TRAINING_TYPES !! workout_type) as [c |] eqn:Hc.
  - rewrite (read_package_known _ workout_data c Hc).
    destruct (new_outcome c workout_data) as [[t Ht] | Ht]; rewrite Ht.
    + rewrite bind_Ok.
      assert (Hk : type_of t <> Training_class).
      { apply (registered_not_base workout_type workout_data).
        rewrite (read_package_known _ workout_data c Hc). exact Ht. }
      destruct (show_training_info t) as [info | e] eqn:Hs.
      * left. destruct (main_Ok t info stdout Hs) as (line & _ & Hm).
        exists line. exact Hm.
      * rewrite (main_Raise t e stdout Hs).
        destruct (show_training_info_Raise t e Hs)
          as [[-> | ->] | [Hb _]]; [auto | auto 6 | contradiction].
    + right. right. left. reflexivity.
  - right. left. unfold read_package, contains. rewrite Hc. reflexivity.
Qed.

Lemma run_cons
  (pkg : string * list number) (pkgs : list (string * list number))
  (stdout : list string) :
  run (pkg :: pkgs) stdout
  = (workout ← read_package pkg.1 pkg.2;
     stdout' ← main workout stdout;
     run pkgs stdout').
Proof. destruct pkg. reflexivity. Qed.

(** X6. When the script loop ends normally it has printed exactly one line
    per package, in the order of the packages and after the earlier output:
    the line of a package is the message of the workout read from it. *)
Theorem run_prints_each_package
  (pkgs : list (string * list number)) (stdout stdout' : list string) :
  run pkgs stdout = Ok stdout' ->
  exists lines : list string,
    stdout' = (stdout ++ lines)%list
    /\ Forall2
         (fun (pkg : string * list number) (line : string) =>
            exists (t : Training) (info : InfoMessage.t),
              read_package pkg.1 pkg.2 = Ok t
              /\ show_training_info t = Ok info
              /\ InfoMessage.get_message info = Ok line)
         pkgs lines.
Proof.
  revert stdout. induction pkgs as [| pkg pkgs IH]; intros stdout H.
  - injection H as <-. exists []. split; [| constructor].
    symmetry. apply app_nil_r.
  - rewrite run_cons in H.
    apply bind_Ok_inv in H as (t & Ht & H).
    apply bind_Ok_inv in H as (out1 & Hm & H).
    unfold main in Hm.
    apply bind_Ok_inv in Hm as (info & Hs & Hm).
    apply bind_Ok_inv in Hm as (line & Hl & Hm).
    injection Hm as <-.
    destruct (IH _ H) as (lines & -> & Hall).
    exists (line :: lines). split.
    + rewrite <- app_assoc. reflexivity.
    + constructor; [| exact Hall]. exists t, info. auto.
Qed.

Lemma run_prints_each_package_witness :
  exists lines : list string,
    Forall2
      (fun (pkg : string * list number) (line : string) =>
         exists (t : Training) (info : InfoMessage.t),
           read_package pkg.1 pkg.2 = Ok t
           /\ show_training_info t = Ok info
           /\ InfoMessage.get_message info = Ok line)
      packages lines.
Proof.
  assert (Hrun : exists out, run packages [] = Ok out)
    by (eexists; vm_compute; reflexivity).
  destruct Hrun as [out Hrun].
  destruct (run_prints_each_package packages [] out Hrun)
    as (lines & _ & Hall).
  exists lines. exact Hall.
Defined.

(** X7. The loop over a list of packages followed by another is the loop
    over the first list continued by the loop over the second; a failure
    in the first list stops the script before the second is read. *)
Theorem run_app
  (pkgs1 pkgs2 : list (string * list number)) (stdout : list string) :
  run (pkgs1 ++ pkgs2)%list stdout
  = (stdout' ← run pkgs1 stdout; run pkgs2 stdout').
Proof.
  revert stdout. induction pkgs1 as [| pkg pkgs1 IH]; intro stdout.
  - reflexivity.
  - change ((pkg :: pkgs1) ++ pkgs2)%list with (pkg :: (pkgs1 ++ pkgs2))%list.
    rewrite !run_cons.
    destruct (read_package pkg.1 pkg.2) as [t | e]; [| reflexivity].
    rewrite !bind_Ok.
    destruct (main t stdout) as [out1 | e]; [| reflexivity].
    rewrite !bind_Ok. apply IH.
Qed.
